(** * Secure-storage SRP back end: the protocol handlers of
      [src/backend/thinbus-srp-server.js] as a shallow embedding.

    The module keeps a process-wide user "DB" (a plain JavaScript object
    cached in [users] and mirrored to a JSON file), and serves three
    routes, [/register], [/challenge] and [/auth], on top of an external
    SRP-6a engine and of the per-browser session object supplied by the
    session middleware.  The embedding threads that state explicitly. *)

From stdpp Require Import base option strings list gmap.

Open Scope string_scope.
Open Scope list_scope.

(** ** JavaScript values

    A request field ([req.query.user], [req.body.salt], ...) is either
    absent or a string. *)
Definition field : Type := option string.

(** [!x] is false exactly for a present, non-empty string. *)
Definition truthy (x : field) : bool :=
  match x with
  | Some s => negb (String.eqb s "")
  | None => false
  end.

(** Property keys are strings; [undefined] used as a key reads "undefined". *)
Definition to_key (x : field) : string := default "undefined" x.

(** The object literal [{salt: salt, verifier: verifier}]. *)
Record UserRecord : Type := mkUser { salt : field; verifier : field }.

#[global] Instance UserRecord_eq_dec : EqDecision UserRecord.
Proof. solve_decision. Defined.

(** What [users[username]] can evaluate to. *)
Inductive jsval : Type :=
  | VUndefined
  | VNull
  | VString (s : string)
  | VRecord (r : UserRecord)
  | VFunction (name : string)
  | VObjectPrototype.

#[global] Instance jsval_eq_dec : EqDecision jsval.
Proof. solve_decision. Defined.

Definition truthy_val (v : jsval) : bool :=
  match v with
  | VUndefined | VNull => false
  | VString s => negb (String.eqb s "")
  | VRecord _ | VFunction _ | VObjectPrototype => true
  end.

Definition field_val (x : field) : jsval :=
  match x with
  | Some s => VString s
  | None => VUndefined
  end.

(** [user.salt] and [user.verifier] on a truthy value: only a record has
    them, every other object or string yields [undefined]. *)
Definition get_salt (v : jsval) : field :=
  match v with VRecord r => salt r | _ => None end.

Definition get_verifier (v : jsval) : field :=
  match v with VRecord r => verifier r | _ => None end.

(** ** The [users] object

    [users] is an ordinary object, created by [{}] or by [JSON.parse]:
    its own properties are the registered records, and its prototype is
    [Object.prototype] until an assignment to [__proto__] replaces it. *)
Record UsersObj : Type := mkObj {
  own : gmap string UserRecord;
  proto : option UserRecord   (* [None]: still [Object.prototype] *)
}.

Definition empty_object : UsersObj := mkObj ∅ None.

(** The function-valued properties every object inherits. *)
Definition object_prototype_methods : list string :=
  [ "constructor"; "hasOwnProperty"; "isPrototypeOf"; "propertyIsEnumerable";
    "toString"; "toLocaleString"; "valueOf";
    "__defineGetter__"; "__defineSetter__"; "__lookupGetter__"; "__lookupSetter__" ].

Definition inherited_method (k : string) : bool :=
  existsb (String.eqb k) object_prototype_methods.

(** Lookup of [k] on [Object.prototype] for a receiver whose prototype is
    [p]: the [__proto__] accessor returns [p]. *)
Definition object_prototype_get (p : jsval) (k : string) : jsval :=
  if String.eqb k "__proto__" then p
  else if inherited_method k then VFunction k
  else VUndefined.

(** [users[k]]: own property first, then the prototype chain. *)
Definition js_get (o : UsersObj) (k : string) : jsval :=
  match own o !! k with
  | Some r => VRecord r
  | None =>
      match proto o with
      | Some p =>
          if String.eqb k "salt" then field_val (salt p)
          else if String.eqb k "verifier" then field_val (verifier p)
          else object_prototype_get (VRecord p) k
      | None => object_prototype_get VObjectPrototype k
      end
  end.

(** [users[k] = r]: creates or overwrites an own property, except that
    [__proto__], when not already an own property, reaches the inherited
    setter and replaces the prototype. *)
Definition js_set (o : UsersObj) (k : string) (r : UserRecord) : UsersObj :=
  if String.eqb k "__proto__" then
    match own o !! k with
    | Some _ => mkObj (<[k := r]> (own o)) (proto o)
    | None => mkObj (own o) (Some r)
    end
  else mkObj (<[k := r]> (own o)) (proto o).

(** [JSON.stringify(users)] keeps the own enumerable properties;
    [JSON.parse] of such a text builds an ordinary object from them. *)
Definition JSON_stringify (o : UsersObj) : gmap string UserRecord := own o.
Definition JSON_parse (snapshot : gmap string UserRecord) : UsersObj :=
  mkObj snapshot None.

(** ** Requests and responses *)
Record Request : Type := mkReq {
  path : string;
  method : string;
  query_user : field;
  body_user : field;
  body_salt : field;
  body_verifier : field;
  body_A : field;
  body_M1 : field
}.

Inductive Body : Type :=
  | NoBody
  | Text (s : string)
  | ChallengeJson (s : field) (B : string)   (* [{salt, B}] *)
  | AuthJson (M2 : string).                  (* [{M2}] *)

Record Response : Type := mkResp {
  status : nat;
  content_type : option string;
  body : Body
}.

(** [status('Bad Request')] and friends, from the [statuses] package. *)
Definition Bad_Request : nat := 400.
Definition Unauthorized : nat := 401.
Definition Forbidden : nat := 403.
Definition Not_Found : nat := 404.
Definition No_Content : nat := 204.
Definition Internal_Server_Error : nat := 500.
Definition OK : nat := 200.

(** What a handler does to the outside, in the order it does it. *)
Inductive Event : Type :=
  | ReadFile (found : bool)
  | WriteFile (snapshot : gmap string UserRecord)
  | WriteFailed
  | Console (msg : string)
  | Send (r : Response)
  | Next.

(** ** The handlers, over an abstract SRP engine *)
Section Server.

(** The engine ([thinbus-srp/server.js], instantiated with the RFC 5054
    group) is external.  [PrivState] is what [toPrivateStoreState]
    returns, an object and therefore truthy.  [step1] stands for
    [new SRP6JavascriptServerSession()], [step1(username, salt, verifier)]
    and [toPrivateStoreState()] together, with the random draw made
    explicit; [step2] stands for [step2(A, M1)] on a session object that
    [fromPrivateStoreState(state)] has filled from the stored state.
    [None] is a thrown exception. *)
Variable PrivState : Type.
Variable step1 : nat -> field -> field -> field -> option (string * PrivState).
Variable step2 : PrivState -> field -> field -> option string.

(** [req.session]: the properties this module names.  [server] is never
    assigned here; it is only the operand of the [delete] in [auth]. *)
Record Session : Type := mkSession {
  serverSession : option PrivState;
  loggedIn : option bool;
  server : option PrivState
}.

Definition fresh_session : Session := mkSession None None None.

(** The state a request runs in: the module-level [users] ([None] is
    [null]), the file at [STORAGE_PATH] ([None]: missing, unreadable or
    not JSON; otherwise a snapshot, the only thing [saveUser] writes
    there), whether a write to it succeeds, the engine's randomness, the
    caller's session, and the events so far.  Requests are served one
    after the other: what two handlers suspended at an [await] could do
    to each other is not part of this model. *)
Record State : Type := mkState {
  users : option UsersObj;
  disk : option (gmap string UserRecord);
  disk_writable : bool;
  rng : nat;
  session : Session;
  trace : list Event
}.

Definition set_users (u : option UsersObj) (st : State) : State :=
  mkState u (disk st) (disk_writable st) (rng st) (session st) (trace st).
Definition set_disk (d : option (gmap string UserRecord)) (st : State) : State :=
  mkState (users st) d (disk_writable st) (rng st) (session st) (trace st).
Definition set_rng (n : nat) (st : State) : State :=
  mkState (users st) (disk st) (disk_writable st) n (session st) (trace st).
Definition set_session (s : Session) (st : State) : State :=
  mkState (users st) (disk st) (disk_writable st) (rng st) s (trace st).
Definition emit (e : Event) (st : State) : State :=
  mkState (users st) (disk st) (disk_writable st) (rng st) (session st)
          (trace st ++ [e]).

(** A computation returns or throws, and always leaves a state. *)
Inductive Result (A : Type) : Type :=
  | Ok (a : A)
  | Throw (err : string).
Arguments Ok {A} a.
Arguments Throw {A} err.

Definition M (A : Type) : Type := State -> Result A * State.

Definition ret {A} (a : A) : M A := fun st => (Ok a, st).
Definition throw {A} (err : string) : M A := fun st => (Throw err, st).
Definition bind {A B} (m : M A) (k : A -> M B) : M B :=
  fun st =>
    match m st with
    | (Ok a, st') => k a st'
    | (Throw e, st') => (Throw e, st')
    end.
Definition catch {A} (m : M A) (h : string -> M A) : M A :=
  fun st =>
    match m st with
    | (Ok a, st') => (Ok a, st')
    | (Throw e, st') => h e st'
    end.
Definition modify (f : State -> State) : M unit := fun st => (Ok tt, f st).
Definition gets {A} (f : State -> A) : M A := fun st => (Ok (f st), st).

#[local] Instance M_ret : MRet M := @ret.
#[local] Instance M_bind : MBind M := fun A B k m => bind m k.

(** ** Responses *)
Definition send (code : nat) (ct : option string) (b : Body) : M unit :=
  modify (emit (Send (mkResp code ct b))).

Definition console (msg : string) : M unit := modify (emit (Console msg)).

(** ** The user "DB" *)

(** [getUser]: the cache if it is set, otherwise one read of the file. *)
Definition getUser (username : field) : M jsval :=
  us ← gets users;
  match us with
  | Some o => ret (js_get o (to_key username))
  | None =>
      d ← gets disk;
      match d with
      | Some snapshot =>
          modify (emit (ReadFile true));;
          modify (set_users (Some (JSON_parse snapshot)));;
          ret (js_get (JSON_parse snapshot) (to_key username))
      | None =>
          modify (emit (ReadFile false));;
          console "unable to read file ./thinbus-srp.db.json, create empty user database";;
          modify (set_users (Some empty_object));;
          ret VNull
      end
  end.

(** [fsp.writeFile(STORAGE_PATH, JSON.stringify(users))]. *)
Definition writeFile (snapshot : gmap string UserRecord) : M unit :=
  w ← gets disk_writable;
  if (w : bool) return M unit then
    modify (set_disk (Some snapshot));;
    modify (emit (WriteFile snapshot))
  else
    modify (emit WriteFailed);;
    throw "write failed".

(** [saveUser]: assigns into the cached object, then writes the file. *)
Definition saveUser (username salt verifier : field) : M unit :=
  us ← gets users;
  match us with
  | None => throw "TypeError: Cannot set properties of null"
  | Some o =>
      let o' := js_set o (to_key username) (mkUser salt verifier) in
      modify (set_users (Some o'));;
      writeFile (JSON_stringify o')
  end.

(** ** [/challenge] *)
Definition engine_step1 (username salt verifier : field) : M (string * PrivState) :=
  n ← gets rng;
  modify (set_rng (S n));;
  match step1 n username salt verifier with
  | Some r => ret r
  | None => throw "step1"
  end.

(** [req.session.serverSession = p], [req.session.loggedIn = b] and
    [delete req.session.server]. *)
Definition set_serverSession (p : PrivState) (s : Session) : Session :=
  mkSession (Some p) (loggedIn s) (server s).
Definition set_loggedIn (b : bool) (s : Session) : Session :=
  mkSession (serverSession s) (Some b) (server s).
Definition delete_server (s : Session) : Session :=
  mkSession (serverSession s) (loggedIn s) None.
Definition on_session (f : Session -> Session) : M unit :=
  modify (fun st => set_session (f (session st)) st).

Definition challenge (req : Request) : M unit :=
  let username := query_user req in
  if negb (String.eqb (method req) "GET") || negb (truthy username) then
    send Bad_Request None (Text "Missing parameter or wrong method type")
  else
    user ← getUser username;
    if negb (truthy_val user) then
      send Not_Found None (Text "User not found")
    else
      '(B, p) ← engine_step1 username (get_salt user) (get_verifier user);
      on_session (set_serverSession p);;
      send OK (Some "application/json") (ChallengeJson (get_salt user) B).

(** ** [/auth] *)
Definition auth (req : Request) : M unit :=
  let username := body_user req in
  let A := body_A req in
  let M1 := body_M1 req in
  if negb (String.eqb (method req) "POST") || negb (truthy username)
     || negb (truthy A) || negb (truthy M1) then
    send Bad_Request None (Text "Missing parameter or invalid method type")
  else
    s ← gets session;
    match serverSession s with
    | None => send Forbidden None (Text "Called ./auth before ./challenge")
    | Some p =>
        match step2 p A M1 with
        | Some M2 =>
            on_session (set_loggedIn true);;
            on_session delete_server;;
            send OK (Some "application/json") (AuthJson M2)
        | None =>
            console "step2 failed";;
            on_session (set_loggedIn false);;
            send Unauthorized None (Text "Invalid credentials")
        end
    end.

(** ** [/register] *)
Definition register (req : Request) : M unit :=
  let user := body_user req in
  let salt := body_salt req in
  let verifier := body_verifier req in
  if negb (String.eqb (method req) "POST") || negb (truthy user)
     || negb (truthy salt) || negb (truthy verifier) then
    send Bad_Request None (Text "Missing parameter or invalid method type")
  else
    found ← getUser user;
    if truthy_val found then
      send Forbidden None (Text "User already exists")
    else
      saveUser user salt verifier;;
      send No_Content None NoBody.

(** ** Routing *)
Definition onError (err : string) : M unit :=
  console err;;
  send Internal_Server_Error None NoBody.

Definition handleRequest (req : Request) : M unit :=
  if String.eqb (path req) "/challenge" then catch (challenge req) onError
  else if String.eqb (path req) "/auth" then catch (auth req) onError
  else if String.eqb (path req) "/register" then catch (register req) onError
  else modify (emit Next).

(** The [cleanup] export: [users = null]. *)
Definition cleanup : M unit := modify (set_users None).

(** The state after a computation, and the responses sent during it. *)
Definition exec {A} (m : M A) (st : State) : State := snd (m st).

Definition responses (t : list Event) : list Response :=
  omap (fun e => match e with Send r => Some r | _ => None end) t.

(** Requests served one after the other on the same session. *)
Fixpoint serve (reqs : list Request) (st : State) : State :=
  match reqs with
  | [] => st
  | r :: rest => serve rest (exec (handleRequest r) st)
  end.

End Server.

Arguments Ok {A} a.
Arguments Throw {A} err.
Arguments mkSession {PrivState} _ _ _.
Arguments mkState {PrivState} _ _ _ _ _ _.
Arguments fresh_session {PrivState}.
Arguments serverSession {PrivState} _.
Arguments loggedIn {PrivState} _.
Arguments server {PrivState} _.
Arguments users {PrivState} _.
Arguments disk {PrivState} _.
Arguments disk_writable {PrivState} _.
Arguments rng {PrivState} _.
Arguments session {PrivState} _.
Arguments trace {PrivState} _.
Arguments emit {PrivState} _ _.
Arguments set_users {PrivState} _ _.
Arguments set_disk {PrivState} _ _.
Arguments set_rng {PrivState} _ _.
Arguments set_session {PrivState} _ _.
Arguments set_serverSession {PrivState} _ _.
Arguments set_loggedIn {PrivState} _ _.
Arguments delete_server {PrivState} _.
Arguments getUser {PrivState} _ _.
Arguments saveUser {PrivState} _ _ _ _.
Arguments writeFile {PrivState} _ _.
Arguments register {PrivState} _ _.
Arguments auth {PrivState} _ _ _.
Arguments challenge {PrivState} _ _ _.
Arguments handleRequest {PrivState} _ _ _ _.
Arguments serve {PrivState} _ _ _ _.
Arguments exec {PrivState A} _ _.
Arguments cleanup {PrivState} _.
Arguments catch {PrivState A} _ _ _.
Arguments onError {PrivState} _ _.
Arguments M_ret {PrivState}.
Arguments M_bind {PrivState}.

(** ** A small concrete engine

    Enough of an SRP engine to run the handlers on concrete requests:
    [step1] refuses a missing salt or verifier, as the real [check] does,
    and derives [B] from the draw; [step2] accepts exactly one proof per
    stored state and client value [A]. *)
Module Toy.

Record PrivState : Type := mkPriv { I : field; v : field; b : nat }.

Definition public_B (n : nat) : string := String.concat "" (replicate (S n) "b").

Definition step1 (n : nat) (username salt verifier : field)
  : option (string * PrivState) :=
  if truthy salt && truthy verifier
  then Some (public_B n, mkPriv username verifier n)
  else None.

Definition proof_for (p : PrivState) (A : field) : string :=
  (to_key A ++ ":" ++ to_key (v p) ++ ":" ++ public_B (b p))%string.

Definition step2 (p : PrivState) (A M1 : field) : option string :=
  if bool_decide (M1 = Some (proof_for p A))
  then Some ("M2:" ++ proof_for p A)%string
  else None.

Definition boot (d : option (gmap string UserRecord)) : State PrivState :=
  mkState None d true 0 fresh_session [].

Definition GET_challenge (u : string) : Request :=
  mkReq "/challenge" "GET" (Some u) None None None None None.
Definition POST_register (u s w : string) : Request :=
  mkReq "/register" "POST" None (Some u) (Some s) (Some w) None None.
Definition POST_auth (u a m : string) : Request :=
  mkReq "/auth" "POST" None (Some u) None None (Some a) (Some m).

Definition run (reqs : list Request) (st : State PrivState) : State PrivState :=
  serve step1 step2 reqs st.

(** A server that has loaded a snapshot with one user, and the same
    server after that user asked for a challenge. *)
Definition alice : UserRecord := mkUser (Some "5a") (Some "7f").

Definition loaded : State PrivState :=
  mkState (Some (mkObj {[ "alice" := alice ]} None))
          (Some {[ "alice" := alice ]}) true 0 fresh_session [].

Definition challenged : State PrivState := run [GET_challenge "alice"] loaded.

Definition alice_state : PrivState := mkPriv (Some "alice") (Some "7f") 0.

End Toy.

(** * The browser-side client: [src/frontend/thinbus-srp-client.js]

    [ThinbusSRPClient] drives the protocol from the other end.  What it
    uses from outside is taken as given: the global [fetch], the client
    half of the SRP engine ([thinbus-srp/client.js]), and
    [encodeURIComponent]. *)
Module Client.

(** The JSON texts the client sends: [JSON.stringify] of
    [{user, salt, verifier}] and of [{user, A, M1}]. *)
Inductive JsonBody : Type :=
  | RegisterBody (user salt verifier : field)
  | AuthBody (user A M1 : field).

Section ThinbusSRPClient.

(** [Cookie] is the value of the [set-cookie] response header, an array
    the client stores and sends back without looking into it. *)
Variable Cookie : Type.

(** The [options.headers] the client sets. *)
Record Headers : Type := mkHeaders {
  Accept : option string;
  Content_Type : option string;
  Cookie_header : option Cookie
}.

Definition no_headers : Headers := mkHeaders None None None.

Definition json_headers : Headers :=
  mkHeaders (Some "application/json") (Some "application/json") None.

(** A call of the global [fetch(url, options)]. *)
Record HttpRequest : Type := mkHttp {
  url : string;
  http_method : option string;
  headers : Headers;
  http_body : option JsonBody
}.

(** A parsed response body, seen through the three properties the
    client reads from it. *)
Record Json : Type := mkJson { j_salt : field; j_B : field; j_M2 : field }.

(** What the client looks at in a response: [status], the [set-cookie]
    header, [json()] ([None] when the body is not JSON) and [text()]. *)
Record FetchResponse : Type := mkFetch {
  rsp_status : nat;
  rsp_set_cookie : option Cookie;
  rsp_json : option Json;
  rsp_text : string
}.

(** [response.ok]: a status from 200 to 299. *)
Definition ok (r : FetchResponse) : bool :=
  Nat.leb 200 (rsp_status r) && Nat.leb (rsp_status r) 299.

(** [typeof window !== 'undefined'], and the [location] prefix computed
    from it ('http://localhost/' outside a browser). *)
Variable in_browser : bool.
Variable location : string.

(** The network behind the global [fetch]: a state, and for each request
    a response or a rejection. *)
Variable Net : Type.
Variable global_fetch : HttpRequest -> Net -> option FetchResponse * Net.

Variable encodeURIComponent : string -> string.

(** The client session of the engine.  [step1] stands for the identity
    and password being stored in a new session object, [step2] returns
    [{A, M1}] after a random draw, [step3] is true when the check of
    [M2] does not throw; [None] is a thrown exception. *)
Variable ClientSession : Type.
Variable generateRandomSalt : nat -> string.
Variable generateVerifier : string -> string -> string -> option string.
Variable step1 : string -> string -> option ClientSession.
Variable step2 :
  nat -> ClientSession -> field -> field -> option (field * field * ClientSession).
Variable step3 : ClientSession -> field -> bool.

(** The client object ([this.cookie]), the engine's random draws, the
    network, and the requests handed to the global [fetch] so far. *)
Record ClientState : Type := mkClient {
  cookie : option Cookie;
  draws : nat;
  net : Net;
  sent : list HttpRequest
}.

Definition CM (A : Type) : Type := ClientState -> Result A * ClientState.

Definition cret {A} (a : A) : CM A := fun c => (Ok a, c).
Definition cthrow {A} (err : string) : CM A := fun c => (Throw err, c).
Definition cbind {A B} (m : CM A) (k : A -> CM B) : CM B :=
  fun c =>
    match m c with
    | (Ok a, c') => k a c'
    | (Throw e, c') => (Throw e, c')
    end.

#[local] Instance CM_ret : MRet CM := @cret.
#[local] Instance CM_bind : MBind CM := fun A B k m => cbind m k.

(** A value an engine call returns, or the exception it throws. *)
Definition engine {A} (name : string) (r : option A) : CM A :=
  match r with
  | Some a => cret a
  | None => cthrow name
  end.

(** One random draw of the engine. *)
Definition draw : CM nat :=
  fun c => (Ok (draws c), mkClient (cookie c) (S (draws c)) (net c) (sent c)).

(** The [fetch] method: outside a browser the stored cookie, if any, is
    sent along, and [this.cookie] becomes the response's [set-cookie]. *)
Definition fetch (u : string) (m : option string) (h : Headers)
    (b : option JsonBody) : CM FetchResponse :=
  fun c =>
    let h' :=
      match cookie c with
      | Some k =>
          if negb in_browser
          then mkHeaders (Accept h) (Content_Type h) (Some k)
          else h
      | None => h
      end in
    let request := mkHttp u m h' b in
    match global_fetch request (net c) with
    | (Some rsp, n) =>
        (Ok rsp,
         mkClient (if in_browser then cookie c else rsp_set_cookie rsp)
                  (draws c) n (sent c ++ [request]))
    | (None, n) =>
        (Throw "fetch failed",
         mkClient (cookie c) (draws c) n (sent c ++ [request]))
    end.

(** [response.json()]. *)
Definition json (r : FetchResponse) : CM Json :=
  engine "invalid json" (rsp_json r).

Definition challenge (username : string) : CM Json :=
  response ← fetch (location ++ "challenge?user=" ++ username)%string
                   None no_headers None;
  if ok response then json response else cthrow "challenge failed".

Definition authenticate (username : string) (A M1 : field) : CM field :=
  response ← fetch (location ++ "auth")%string (Some "POST") json_headers
                   (Some (AuthBody (Some username) A M1));
  if ok response
  then j ← json response; cret (j_M2 j)
  else cthrow "invalid credentials".

Definition register (username password : string) : CM bool :=
  n ← draw;
  let salt := generateRandomSalt n in
  verifier ← engine "generateVerifier" (generateVerifier salt username password);
  response ← fetch (location ++ "register")%string (Some "POST") json_headers
                   (Some (RegisterBody (Some username) (Some salt) (Some verifier)));
  if ok response && Nat.eqb (rsp_status response) No_Content
  then cret true
  else cthrow ("registering failed (" ++ rsp_text response ++ ")")%string.

Definition login (username password : string) : CM bool :=
  let username := encodeURIComponent username in
  j ← challenge username;
  client ← engine "step1" (step1 username password);
  n ← draw;
  '(A, M1, client') ← engine "step2" (step2 n client (j_salt j) (j_B j));
  M2 ← authenticate username A M1;
  if step3 client' M2 then cret true else cthrow "step3".

(** The three requests as the client builds them, for a client whose
    stored cookie is [k]. *)
Definition with_cookie (k : option Cookie) (h : Headers) : Headers :=
  match k with
  | Some v =>
      if negb in_browser
      then mkHeaders (Accept h) (Content_Type h) (Some v)
      else h
  | None => h
  end.

Definition challenge_request (k : option Cookie) (username : string)
  : HttpRequest :=
  mkHttp (location ++ "challenge?user=" ++ username)%string None
    (with_cookie k no_headers) None.

Definition auth_request (k : option Cookie) (username : string) (A M1 : field)
  : HttpRequest :=
  mkHttp (location ++ "auth")%string (Some "POST")
    (with_cookie k json_headers) (Some (AuthBody (Some username) A M1)).

Definition register_request (k : option Cookie) (username salt verifier : string)
  : HttpRequest :=
  mkHttp (location ++ "register")%string (Some "POST")
    (with_cookie k json_headers)
    (Some (RegisterBody (Some username) (Some salt) (Some verifier))).

(** The cookie the client holds after a response. *)
Definition cookie_after (k : option Cookie) (rsp : FetchResponse)
  : option Cookie :=
  if in_browser then k else rsp_set_cookie rsp.

End ThinbusSRPClient.

End Client.

(** ** Vocabulary of the statements *)

(** An [/auth] request that passes the parameter check. *)
Definition well_formed_auth (req : Request) : Prop :=
  method req = "POST" /\ truthy (body_user req) = true
  /\ truthy (body_A req) = true /\ truthy (body_M1 req) = true.

(** A [/register] request that passes the parameter check. *)
Definition well_formed_register (req : Request) : Prop :=
  method req = "POST" /\ truthy (body_user req) = true
  /\ truthy (body_salt req) = true /\ truthy (body_verifier req) = true.

(** A [/challenge] request that passes the parameter check. *)
Definition well_formed_challenge (req : Request) : Prop :=
  method req = "GET" /\ truthy (query_user req) = true.

(** The object a lookup consults: the cache once it is set, otherwise
    what the first lookup will build from the file. *)
Definition store {PrivState} (st : State PrivState) : UsersObj :=
  match users st with
  | Some o => o
  | None =>
      match disk st with
      | Some snapshot => JSON_parse snapshot
      | None => empty_object
      end
  end.

(** The record registered under [u], if any: an own property of the store. *)
Definition stored {PrivState} (st : State PrivState) (u : string)
  : option UserRecord :=
  own (store st) !! u.

(** The object a successful registration of [req] leaves in the cache. *)
Definition registered_object {PrivState} (st : State PrivState)
    (req : Request) : UsersObj :=
  js_set (store st) (to_key (body_user req))
    (mkUser (body_salt req) (body_verifier req)).

(** The responses sent while going from [st] to [st']. *)
Definition answered {PrivState} (st st' : State PrivState)
    (rs : list Response) : Prop :=
  responses (trace st') = responses (trace st) ++ rs.

(** The three routes the module serves. *)
Definition srp_route (p : string) : bool :=
  String.eqb p "/challenge" || String.eqb p "/auth" || String.eqb p "/register".

(** How many times the file was read in a trace. *)
Definition is_read (e : Event) : bool :=
  match e with ReadFile _ => true | _ => false end.

Definition file_reads (t : list Event) : nat := length (List.filter is_read t).

(** The file mirrors the cache: it holds the own properties of the store,
    or it is missing and nothing has been registered.  (Before the first
    lookup the store is what the file holds, so this is then trivially
    the case.) *)
Definition mirrored {PrivState} (st : State PrivState) : Prop :=
  disk st = Some (own (store st))
  \/ (disk st = None /\ own (store st) = ∅).

(** * The application: [createServer] in [src/unnamed/part_000]

    [createServer] puts three things in front of [handleRequest]: the
    JSON body parser, the session middleware and a header setter; static
    files come last.  For the requests the client makes this is modelled
    as follows.  Sessions are kept per cookie: [saveUninitialized] makes
    every new session stored and [rolling] makes every response carry
    the session cookie.  The expiry of cookies and the static files are
    not modelled: a request that [handleRequest] passes on gets no
    response here. *)
Module App.

(** [strip_prefix p s] is what follows [p] in [s]. *)
Fixpoint strip_prefix (p s : string) : option string :=
  match p with
  | EmptyString => Some s
  | String a p' =>
      match s with
      | String b s' => if Ascii.eqb a b then strip_prefix p' s' else None
      | EmptyString => None
      end
  end.

(** [cut_at c s] splits [s] at the first [c]. *)
Fixpoint cut_at (c : Ascii.ascii) (s : string) : string * option string :=
  match s with
  | EmptyString => (EmptyString, None)
  | String a r =>
      if Ascii.eqb a c then (EmptyString, Some r)
      else let (h, t) := cut_at c r in (String a h, t)
  end.

(** The character that starts the query string of a URL. *)
Definition question_mark : Ascii.ascii := Eval cbv in Ascii.ascii_of_nat 63.

(** How a response body reads to [response.json()]: the two JSON bodies
    are objects, the plain-text messages and the empty body are not
    JSON. *)
Definition json_of (b : Body) : option Client.Json :=
  match b with
  | ChallengeJson s B => Some (Client.mkJson s (Some B) None)
  | AuthJson M2 => Some (Client.mkJson None None (Some M2))
  | Text _ | NoBody => None
  end.

Section CreateServer.

Context {PrivState : Type}.
Variable step1 : nat -> field -> field -> field -> option (string * PrivState).
Variable step2 : PrivState -> field -> field -> option string.

(** Express's decoding of a query-string value, and the text of a
    response body. *)
Variable qs_decode : string -> string.
Variable render : Body -> string.

(** The server process: the handlers' state (its [session] component is
    the session of the request being served), the session store, and
    the next session id. *)
Record World : Type := mkWorld {
  srv : State PrivState;
  sessions : gmap nat (Session PrivState);
  next_sid : nat
}.

(** The request object Express hands to [handleRequest]: path and query
    from the URL, the body from [bodyParser.json()]. *)
Definition deliver (req : Client.HttpRequest nat) : Request :=
  let target :=
    default (Client.url _ req) (strip_prefix "http://localhost" (Client.url _ req)) in
  let (p, q) := cut_at question_mark target in
  let user :=
    match q with
    | Some qs =>
        match strip_prefix "user=" qs with
        | Some e => Some (qs_decode e)
        | None => None
        end
    | None => None
    end in
  let parsed :=
    match Client.Content_Type _ (Client.headers _ req) with
    | Some ct => if String.eqb ct "application/json" then Client.http_body _ req else None
    | None => None
    end in
  let m := default "GET" (Client.http_method _ req) in
  match parsed with
  | Some (Client.RegisterBody u s v) => mkReq p m user u s v None None
  | Some (Client.AuthBody u a m1) => mkReq p m user u None None a m1
  | None => mkReq p m user None None None None None
  end.

Definition to_fetch (sid : nat) (r : Response) : Client.FetchResponse nat :=
  Client.mkFetch nat (status r) (Some sid) (json_of (body r)) (render (body r)).

(** One request through the application. *)
Definition app (req : Client.HttpRequest nat) (w : World)
  : option (Client.FetchResponse nat) * World :=
  let known :=
    match Client.Cookie_header _ (Client.headers _ req) with
    | Some sid =>
        match sessions w !! sid with
        | Some s => Some (sid, s)
        | None => None
        end
    | None => None
    end in
  let '(sid, s, next) :=
    match known with
    | Some (sid, s) => (sid, s, next_sid w)
    | None => (next_sid w, fresh_session, S (next_sid w))
    end in
  let st' := exec (handleRequest step1 step2 (deliver req)) (set_session s (srv w)) in
  let w' := mkWorld st' (<[sid := session st']> (sessions w)) next in
  if srp_route (path (deliver req))
  then (option_map (to_fetch sid) (last (responses (trace st'))), w')
  else (None, w').

End CreateServer.

End App.

(** A client engine that matches the small server engine: the
    "verifier" is built from salt, identity and password, and the proof
    [M1] from [A], that verifier and [B]. *)
Module ToyClient.

Record ClientSession : Type := mkSession { identity : string; password : string }.

Definition generateRandomSalt (n : nat) : string :=
  String.concat "" (replicate (S n) "5").

Definition generateVerifier (salt username password : string) : option string :=
  if String.eqb password "" then None
  else Some (salt ++ "/" ++ username ++ "/" ++ password)%string.

Definition step1 (username password : string) : option ClientSession :=
  if String.eqb password "" then None else Some (mkSession username password).

Definition step2 (n : nat) (c : ClientSession) (salt B : field)
  : option (field * field * ClientSession) :=
  match salt, B with
  | Some s, Some b =>
      let A := String.concat "" (replicate (S n) "a") in
      Some (Some A,
            Some (A ++ ":" ++ s ++ "/" ++ identity c ++ "/" ++ password c
                    ++ ":" ++ b)%string,
            c)
  | _, _ => None
  end.

Definition step3 (c : ClientSession) (M2 : field) : bool :=
  match M2 with
  | Some m => negb (String.eqb m "")
  | None => false
  end.

Definition render (b : Body) : string :=
  match b with
  | Text s => s
  | _ => ""
  end.

(** A client outside a browser, talking to the application. *)
Definition start (d : option (gmap string UserRecord))
  : Client.ClientState nat (App.World (PrivState := Toy.PrivState)) :=
  Client.mkClient nat _ None 0 (App.mkWorld (Toy.boot d) ∅ 0) [].

Definition app := App.app Toy.step1 Toy.step2 (fun s => s) render.

Definition register :=
  Client.register nat false "http://localhost/" _ app
    generateRandomSalt generateVerifier.

Definition login :=
  Client.login nat false "http://localhost/" _ app
    (fun s => s) ClientSession step1 step2 step3.

(** The client after it registered "alice" on a server without a file. *)
Definition registered := snd (register "alice" "secret" (start None)).

(** The response to a request, and the server after it. *)
Definition response_to (req : Client.HttpRequest nat)
    (w : App.World (PrivState := Toy.PrivState)) : Client.FetchResponse nat :=
  default (Client.mkFetch nat 0 None None "") (fst (app req w)).

Definition world_after (req : Client.HttpRequest nat)
    (w : App.World (PrivState := Toy.PrivState)) :=
  snd (app req w).

End ToyClient.

(** More concrete server states: one whose file cannot be written, and
    one holding a record the small engine refuses. *)
Module Toy2.

Definition read_only : State Toy.PrivState :=
  mkState None None false 0 fresh_session [].

Definition blank : UserRecord := mkUser None None.

Definition with_blank_user : State Toy.PrivState :=
  mkState (Some (mkObj {[ "carol" := blank ]} None))
          (Some {[ "carol" := blank ]}) true 0 fresh_session [].

End Toy2.

(** * Properties of the handlers *)

Lemma responses_app (t1 t2 : list Event) :
  responses (t1 ++ t2) = responses t1 ++ responses t2.
Proof.
  unfold responses. apply omap_app.
Qed.

Lemma responses_send (t : list Event) (r : Response) :
  responses (t ++ [Send r]) = responses t ++ [r].
Proof. rewrite responses_app. reflexivity. Qed.

Lemma responses_silent (t : list Event) (e : Event) :
  (forall r, e <> Send r) -> responses (t ++ [e]) = responses t.
Proof.
  intros He. rewrite responses_app. destruct e; try apply app_nil_r.
  now destruct (He r).
Qed.

Lemma responses_console (t : list Event) (msg : string) :
  responses (t ++ [Console msg]) = responses t.
Proof. now apply responses_silent. Qed.

(** Rewrites the responses of a trace that grew by known events. *)
Ltac simpl_responses :=
  simpl trace;
  repeat first
    [ rewrite responses_send
    | rewrite responses_console
    | rewrite responses_silent by discriminate ].

(** Unfolds the monad so that a handler applied to a state computes. *)
Ltac unfold_monad :=
  unfold exec, send, console, on_session, catch, onError, gets, modify,
    throw, ret, mbind, M_bind, mret, M_ret, bind in *.

Section AuthProperties.

Context {PrivState : Type}.
Variable step1 : nat -> field -> field -> field -> option (string * PrivState).
Variable step2 : PrivState -> field -> field -> option string.

Lemma auth_guard_passes (req : Request) :
  well_formed_auth req ->
  negb (String.eqb (method req) "POST") || negb (truthy (body_user req))
    || negb (truthy (body_A req)) || negb (truthy (body_M1 req)) = false.
Proof.
  intros (Hm & Hu & HA & HM). rewrite Hm, Hu, HA, HM. reflexivity.
Qed.

(** What [auth] does once the parameters are there: one equation per
    branch of the handler. *)
Lemma auth_no_state (req : Request) (st : State PrivState) :
  well_formed_auth req ->
  serverSession (session st) = None ->
  auth step2 req st
  = (Ok tt, emit (Send (mkResp Forbidden None
                          (Text "Called ./auth before ./challenge"))) st).
Proof.
  intros Hwf Hs. unfold auth. rewrite (auth_guard_passes _ Hwf).
  unfold_monad. rewrite Hs. reflexivity.
Qed.

Lemma auth_verified (req : Request) (st : State PrivState) p M2 :
  well_formed_auth req ->
  serverSession (session st) = Some p ->
  step2 p (body_A req) (body_M1 req) = Some M2 ->
  auth step2 req st
  = (Ok tt,
     emit (Send (mkResp OK (Some "application/json") (AuthJson M2)))
       (set_session (delete_server (set_loggedIn true (session st))) st)).
Proof.
  intros Hwf Hs H2. unfold auth. rewrite (auth_guard_passes _ Hwf).
  unfold_monad. rewrite Hs, H2. reflexivity.
Qed.

Lemma auth_rejected (req : Request) (st : State PrivState) p :
  well_formed_auth req ->
  serverSession (session st) = Some p ->
  step2 p (body_A req) (body_M1 req) = None ->
  auth step2 req st
  = (Ok tt,
     emit (Send (mkResp Unauthorized None (Text "Invalid credentials")))
       (set_session (set_loggedIn false (session st))
          (emit (Console "step2 failed") st))).
Proof.
  intros Hwf Hs H2. unfold auth. rewrite (auth_guard_passes _ Hwf).
  unfold_monad. rewrite Hs, H2. reflexivity.
Qed.

(** [auth] itself never throws, so the router's [onError] is not reached. *)
Lemma auth_returns (req : Request) (st : State PrivState) :
  fst (auth step2 req st) = Ok tt.
Proof.
  unfold auth.
  destruct (negb (String.eqb (method req) "POST") || negb (truthy (body_user req))
            || negb (truthy (body_A req)) || negb (truthy (body_M1 req)));
    [reflexivity|].
  unfold_monad. destruct (serverSession (session st)) as [p|]; [|reflexivity].
  destruct (step2 p (body_A req) (body_M1 req)); reflexivity.
Qed.

Lemma handleRequest_auth (req : Request) (st : State PrivState) :
  path req = "/auth" ->
  handleRequest step1 step2 req st = auth step2 req st.
Proof.
  intros Hp. unfold handleRequest. rewrite Hp. simpl. unfold catch.
  pose proof (auth_returns req st) as Hr.
  destruct (auth step2 req st) as [[[]|e] st']; simpl in Hr; congruence.
Qed.

(** C3.  On a session that holds no [serverSession] (never challenged,
    or a fresh session after expiry), an [/auth] request with the three
    fields present is answered 403 "Called ./auth before ./challenge"
    and changes nothing; a failed verification, on a session that does
    hold a state, is answered 401 "Invalid credentials": the two
    outcomes carry different status codes. *)
Theorem auth_without_challenge_is_forbidden
    (req : Request) (st : State PrivState) :
  well_formed_auth req ->
  serverSession (session st) = None ->
  let st' := exec (auth step2 req) st in
  responses (trace st')
    = responses (trace st)
      ++ [mkResp Forbidden None (Text "Called ./auth before ./challenge")]
  /\ session st' = session st /\ users st' = users st /\ disk st' = disk st
  /\ (forall (st2 : State PrivState) p,
        serverSession (session st2) = Some p ->
        step2 p (body_A req) (body_M1 req) = None ->
        responses (trace (exec (auth step2 req) st2))
          = responses (trace st2)
            ++ [mkResp Unauthorized None (Text "Invalid credentials")])
  /\ Forbidden = 403 /\ Unauthorized = 401 /\ Forbidden <> Unauthorized.
Proof.
  intros Hwf Hs st'. subst st'. unfold exec.
  rewrite (auth_no_state _ _ Hwf Hs). simpl.
  simpl_responses.
  split_and!; try reflexivity; [|discriminate].
  intros st2 p Hs2 H2. rewrite (auth_rejected _ _ _ Hwf Hs2 H2). simpl.
  simpl_responses. reflexivity.
Qed.

(** C4.  When [step2] rejects the proof, [auth] sets [loggedIn] to
    false, answers 401, and leaves [serverSession] (and the user DB)
    as it was; a retry on the same session is therefore checked by
    [step2] against the same state again, and is answered 200 or 401,
    never 403. *)
Theorem auth_failure_keeps_challenge_state
    (req : Request) (st : State PrivState) p :
  well_formed_auth req ->
  serverSession (session st) = Some p ->
  step2 p (body_A req) (body_M1 req) = None ->
  let st' := exec (auth step2 req) st in
  loggedIn (session st') = Some false
  /\ serverSession (session st') = Some p
  /\ responses (trace st')
     = responses (trace st)
       ++ [mkResp Unauthorized None (Text "Invalid credentials")]
  /\ users st' = users st /\ disk st' = disk st
  /\ (forall retry, well_formed_auth retry ->
        responses (trace (exec (auth step2 retry) st'))
        = responses (trace st')
          ++ [match step2 p (body_A retry) (body_M1 retry) with
              | Some M2 => mkResp OK (Some "application/json") (AuthJson M2)
              | None => mkResp Unauthorized None (Text "Invalid credentials")
              end]).
Proof.
  intros Hwf Hs H2 st'. subst st'. unfold exec.
  rewrite (auth_rejected _ _ _ Hwf Hs H2). simpl.
  simpl_responses.
  split_and!; try reflexivity; [assumption|].
  intros retry Hwf'.
  set (st1 := emit _ (set_session _ _)).
  assert (Hs1 : serverSession (session st1) = Some p) by exact Hs.
  destruct (step2 p (body_A retry) (body_M1 retry)) as [M2|] eqn:Hr.
  - rewrite (auth_verified _ _ _ _ Hwf' Hs1 Hr). subst st1. simpl.
    simpl_responses. reflexivity.
  - rewrite (auth_rejected _ _ _ Hwf' Hs1 Hr). subst st1. simpl.
    simpl_responses. reflexivity.
Qed.

(** C1 (as the code behaves).  After a verified [auth], [loggedIn] is
    true but [serverSession] is still in the session: the handler
    deletes the property [server], not [serverSession].  The same
    request sent again on that session is verified again and answered
    200 with the same [M2], not 403. *)
Theorem auth_success_leaves_serverSession
    (req : Request) (st : State PrivState) p M2 :
  well_formed_auth req ->
  serverSession (session st) = Some p ->
  step2 p (body_A req) (body_M1 req) = Some M2 ->
  let st' := exec (auth step2 req) st in
  loggedIn (session st') = Some true
  /\ server (session st') = None
  /\ serverSession (session st') = Some p
  /\ responses (trace (exec (auth step2 req) st'))
     = responses (trace st)
       ++ [mkResp OK (Some "application/json") (AuthJson M2);
           mkResp OK (Some "application/json") (AuthJson M2)].
Proof.
  intros Hwf Hs H2 st'. subst st'. unfold exec.
  rewrite (auth_verified _ _ _ _ Hwf Hs H2). simpl.
  split_and!; try reflexivity; try assumption.
  set (st1 := emit _ (set_session _ _)).
  assert (Hs1 : serverSession (session st1) = Some p) by exact Hs.
  rewrite (auth_verified _ _ _ _ Hwf Hs1 H2). subst st1. simpl.
  simpl_responses. rewrite <- app_assoc. reflexivity.
Qed.

End AuthProperties.

Section StoreProperties.

Context {PrivState : Type}.
Variable step1 : nat -> field -> field -> field -> option (string * PrivState).
Variable step2 : PrivState -> field -> field -> option string.

Implicit Types (st : State PrivState) (u : field) (o : UsersObj).

(** *** [getUser], branch by branch *)
Lemma getUser_cached st u o :
  users st = Some o ->
  getUser u st = (Ok (js_get o (to_key u)), st).
Proof. intros H. unfold getUser. unfold_monad. rewrite H. reflexivity. Qed.

Lemma getUser_load st u snapshot :
  users st = None -> disk st = Some snapshot ->
  getUser u st
  = (Ok (js_get (JSON_parse snapshot) (to_key u)),
     set_users (Some (JSON_parse snapshot)) (emit (ReadFile true) st)).
Proof.
  intros Hu Hd. unfold getUser. unfold_monad. rewrite Hu, Hd. reflexivity.
Qed.

Lemma getUser_missing st u :
  users st = None -> disk st = None ->
  getUser u st
  = (Ok VNull,
     set_users (Some empty_object)
       (emit (Console "unable to read file ./thinbus-srp.db.json, create empty user database")
          (emit (ReadFile false) st))).
Proof.
  intros Hu Hd. unfold getUser. unfold_monad. rewrite Hu, Hd. reflexivity.
Qed.

(** A lookup returns, fills the cache with the store it consulted, and
    touches neither the session, the file nor the responses. *)
Lemma getUser_frame st u :
  exists v,
    getUser u st = (Ok v, exec (getUser u) st)
    /\ (disk st <> None \/ users st <> None -> v = js_get (store st) (to_key u))
    /\ (disk st = None -> users st = None -> v = VNull)
    /\ users (exec (getUser u) st) = Some (store st)
    /\ disk (exec (getUser u) st) = disk st
    /\ disk_writable (exec (getUser u) st) = disk_writable st
    /\ rng (exec (getUser u) st) = rng st
    /\ session (exec (getUser u) st) = session st
    /\ responses (trace (exec (getUser u) st)) = responses (trace st).
Proof.
  unfold exec, store.
  destruct (users st) as [o|] eqn:Hu; [|destruct (disk st) as [d|] eqn:Hd].
  - rewrite (getUser_cached _ _ _ Hu). simpl. eexists; split_and!; eauto.
    congruence.
  - rewrite (getUser_load _ _ _ Hu Hd). simpl. eexists; split_and!; eauto.
    + congruence.
    + now simpl_responses.
  - rewrite (getUser_missing _ _ Hu Hd). simpl. eexists; split_and!; eauto.
    + intros [?|?]; congruence.
    + now simpl_responses.
Qed.

(** A registered name is found, whatever the prototype holds. *)
Lemma js_get_own o k r : own o !! k = Some r -> js_get o k = VRecord r.
Proof. intros H. unfold js_get. now rewrite H. Qed.

Lemma getUser_stored st (name : string) r :
  stored st name = Some r ->
  getUser (Some name) st = (Ok (VRecord r), exec (getUser (Some name)) st).
Proof.
  intros Hs. destruct (getUser_frame st (Some name)) as (v & Hg & Hv & _).
  rewrite Hg. unfold stored in Hs. rewrite Hv.
  - simpl. now rewrite (js_get_own _ _ _ Hs).
  - unfold store in Hs. destruct (users st); [right; congruence|].
    destruct (disk st); [left; congruence|].
    simpl in Hs. now rewrite lookup_empty in Hs.
Qed.

(** *** [register], branch by branch *)
Lemma register_guard_passes (req : Request) :
  well_formed_register req ->
  negb (String.eqb (method req) "POST") || negb (truthy (body_user req))
    || negb (truthy (body_salt req)) || negb (truthy (body_verifier req)) = false.
Proof.
  intros (Hm & Hu & Hs & Hv). rewrite Hm, Hu, Hs, Hv. reflexivity.
Qed.

Lemma register_bad_request (req : Request) st :
  negb (String.eqb (method req) "POST") || negb (truthy (body_user req))
    || negb (truthy (body_salt req)) || negb (truthy (body_verifier req)) = true ->
  register req st
  = (Ok tt, emit (Send (mkResp Bad_Request None
                          (Text "Missing parameter or invalid method type"))) st).
Proof. intros H. unfold register. rewrite H. reflexivity. Qed.

Lemma register_conflict (req : Request) st v st1 :
  well_formed_register req ->
  getUser (body_user req) st = (Ok v, st1) ->
  truthy_val v = true ->
  register req st
  = (Ok tt, emit (Send (mkResp Forbidden None (Text "User already exists"))) st1).
Proof.
  intros Hwf Hg Hv. unfold register. rewrite (register_guard_passes _ Hwf).
  unfold_monad. rewrite Hg, Hv. reflexivity.
Qed.

Lemma register_saved (req : Request) st v :
  well_formed_register req ->
  fst (getUser (body_user req) st) = Ok v ->
  truthy_val v = false ->
  disk_writable st = true ->
  register req st
  = (Ok tt,
     emit (Send (mkResp No_Content None NoBody))
       (emit (WriteFile (JSON_stringify (registered_object st req)))
          (set_disk (Some (JSON_stringify (registered_object st req)))
             (set_users (Some (registered_object st req))
                (exec (getUser (body_user req)) st))))).
Proof.
  intros Hwf Hg Hv Hw.
  destruct (getUser_frame st (body_user req))
    as (v' & Hg' & _ & _ & Hus & _ & Hdw & _).
  rewrite Hg' in Hg. simpl in Hg. injection Hg as ->.
  set (st1 := exec (getUser (body_user req)) st) in *.
  unfold register. rewrite (register_guard_passes _ Hwf).
  cbv zeta. unfold mbind, M_bind, bind. rewrite Hg', Hv.
  unfold saveUser, writeFile. unfold_monad. simpl.
  rewrite Hus. simpl. rewrite Hdw, Hw. reflexivity.
Qed.

Lemma register_write_failed (req : Request) st v :
  well_formed_register req ->
  fst (getUser (body_user req) st) = Ok v ->
  truthy_val v = false ->
  disk_writable st = false ->
  register req st
  = (Throw "write failed",
     emit WriteFailed
       (set_users (Some (registered_object st req))
          (exec (getUser (body_user req)) st))).
Proof.
  intros Hwf Hg Hv Hw.
  destruct (getUser_frame st (body_user req))
    as (v' & Hg' & _ & _ & Hus & _ & Hdw & _).
  rewrite Hg' in Hg. simpl in Hg. injection Hg as ->.
  set (st1 := exec (getUser (body_user req)) st) in *.
  unfold register. rewrite (register_guard_passes _ Hwf).
  cbv zeta. unfold mbind, M_bind, bind. rewrite Hg', Hv.
  unfold saveUser, writeFile. unfold_monad. simpl.
  rewrite Hus. simpl. rewrite Hdw, Hw. reflexivity.
Qed.

(** A request that fails the parameter check changes nothing. *)
Lemma store_emit st e : store (emit e st) = store st.
Proof. reflexivity. Qed.

Lemma store_after_getUser st u : store (exec (getUser u) st) = store st.
Proof.
  destruct (getUser_frame st u) as (_ & _ & _ & _ & Hus & _).
  unfold store at 1. now rewrite Hus.
Qed.

(** C2 (amended).  When [name] is registered, a [/register] request for
    it leaves the store, the file and the record untouched whatever
    salt and verifier it carries; when these are non-empty the answer
    is 403 "User already exists". *)
Theorem register_existing_user_is_conflict (req : Request) st name r :
  body_user req = Some name ->
  stored st name = Some r ->
  let st' := exec (register req) st in
  stored st' name = Some r
  /\ store st' = store st
  /\ disk st' = disk st
  /\ (well_formed_register req ->
      answered st st' [mkResp Forbidden None (Text "User already exists")]).
Proof.
  intros Hname Hst st'. subst st'.
  destruct (negb (String.eqb (method req) "POST") || negb (truthy (body_user req))
            || negb (truthy (body_salt req)) || negb (truthy (body_verifier req)))
    eqn:Hguard.
  - unfold exec, stored. rewrite (register_bad_request _ _ Hguard). simpl.
    rewrite store_emit. split_and!; try reflexivity; try assumption.
    intros Hwf. rewrite (register_guard_passes _ Hwf) in Hguard. discriminate.
  - assert (Hwf : well_formed_register req).
    { unfold well_formed_register.
      destruct (String.eqb_spec (method req) "POST") as [->|]; [|discriminate].
      simpl in Hguard.
      destruct (truthy (body_user req)), (truthy (body_salt req)),
        (truthy (body_verifier req)); try discriminate. auto. }
    pose proof (getUser_stored _ _ _ Hst) as Hg. rewrite <- Hname in Hg.
    destruct (getUser_frame st (body_user req))
      as (_ & _ & _ & _ & _ & Hd & _ & _ & _ & Hresp).
    unfold exec at 1 2 3 4, stored, answered.
    rewrite (register_conflict _ _ _ _ Hwf Hg eq_refl). simpl.
    rewrite store_emit, store_after_getUser.
    split_and!; try reflexivity; try assumption.
    intros _. simpl_responses. now rewrite Hresp.
Qed.

(** *** [challenge], branch by branch *)
Lemma challenge_guard_passes (req : Request) :
  well_formed_challenge req ->
  negb (String.eqb (method req) "GET") || negb (truthy (query_user req)) = false.
Proof. intros (Hm & Hu). rewrite Hm, Hu. reflexivity. Qed.

Lemma challenge_bad_request (req : Request) st :
  negb (String.eqb (method req) "GET") || negb (truthy (query_user req)) = true ->
  challenge step1 req st
  = (Ok tt, emit (Send (mkResp Bad_Request None
                          (Text "Missing parameter or wrong method type"))) st).
Proof. intros H. unfold challenge. rewrite H. reflexivity. Qed.

Lemma challenge_not_found (req : Request) st v st1 :
  well_formed_challenge req ->
  getUser (query_user req) st = (Ok v, st1) ->
  truthy_val v = false ->
  challenge step1 req st
  = (Ok tt, emit (Send (mkResp Not_Found None (Text "User not found"))) st1).
Proof.
  intros Hwf Hg Hv. unfold challenge. rewrite (challenge_guard_passes _ Hwf).
  cbv zeta. unfold mbind, M_bind, bind. rewrite Hg, Hv. reflexivity.
Qed.

Lemma challenge_issued (req : Request) st v st1 B p :
  well_formed_challenge req ->
  getUser (query_user req) st = (Ok v, st1) ->
  truthy_val v = true ->
  step1 (rng st1) (query_user req) (get_salt v) (get_verifier v) = Some (B, p) ->
  challenge step1 req st
  = (Ok tt,
     emit (Send (mkResp OK (Some "application/json")
                   (ChallengeJson (get_salt v) B)))
       (set_session (set_serverSession p (session st1))
          (set_rng (S (rng st1)) st1))).
Proof.
  intros Hwf Hg Hv H1. unfold challenge. rewrite (challenge_guard_passes _ Hwf).
  cbv zeta. unfold mbind, M_bind, bind. rewrite Hg, Hv. simpl.
  unfold engine_step1. unfold_monad. simpl. rewrite H1. reflexivity.
Qed.

Lemma challenge_engine_throws (req : Request) st v st1 :
  well_formed_challenge req ->
  getUser (query_user req) st = (Ok v, st1) ->
  truthy_val v = true ->
  step1 (rng st1) (query_user req) (get_salt v) (get_verifier v) = None ->
  challenge step1 req st = (Throw "step1", set_rng (S (rng st1)) st1).
Proof.
  intros Hwf Hg Hv H1. unfold challenge. rewrite (challenge_guard_passes _ Hwf).
  cbv zeta. unfold mbind, M_bind, bind. rewrite Hg, Hv. simpl.
  unfold engine_step1. unfold_monad. simpl. rewrite H1. reflexivity.
Qed.

Lemma well_formed_challenge_dec (req : Request) :
  negb (String.eqb (method req) "GET") || negb (truthy (query_user req)) = false ->
  well_formed_challenge req.
Proof.
  intros H. unfold well_formed_challenge.
  destruct (String.eqb_spec (method req) "GET") as [->|]; [|discriminate].
  destruct (truthy (query_user req)); [auto|discriminate].
Qed.

Lemma well_formed_register_dec (req : Request) :
  negb (String.eqb (method req) "POST") || negb (truthy (body_user req))
    || negb (truthy (body_salt req)) || negb (truthy (body_verifier req)) = false ->
  well_formed_register req.
Proof.
  intros H. unfold well_formed_register.
  destruct (String.eqb_spec (method req) "POST") as [->|]; [|discriminate].
  simpl in H.
  destruct (truthy (body_user req)), (truthy (body_salt req)),
    (truthy (body_verifier req)); try discriminate. auto.
Qed.

(** What [challenge] may change: the cache gets filled, the draw
    counter advances, and [serverSession] may be replaced.  The store
    contents, the file, [loggedIn] and [server] stay. *)
Lemma challenge_frame (req : Request) st :
  let st' := exec (challenge step1 req) st in
  store st' = store st /\ disk st' = disk st
  /\ disk_writable st' = disk_writable st
  /\ loggedIn (session st') = loggedIn (session st)
  /\ server (session st') = server (session st).
Proof.
  intros st'. subst st'. unfold exec at 1 2 3 4 5.
  destruct (negb (String.eqb (method req) "GET") || negb (truthy (query_user req)))
    eqn:Hguard.
  - rewrite (challenge_bad_request _ _ Hguard). simpl. auto.
  - apply well_formed_challenge_dec in Hguard.
    destruct (getUser_frame st (query_user req))
      as (v & Hg & _ & _ & _ & Hd & Hdw & _ & Hse & _).
    pose proof (store_after_getUser st (query_user req)) as Hst.
    destruct (truthy_val v) eqn:Hv.
    + destruct (step1 (rng (exec (getUser (query_user req)) st)) (query_user req)
                  (get_salt v) (get_verifier v)) as [[B p]|] eqn:H1.
      * rewrite (challenge_issued _ _ _ _ _ _ Hguard Hg Hv H1). simpl.
        rewrite Hse. auto.
      * rewrite (challenge_engine_throws _ _ _ _ Hguard Hg Hv H1). simpl.
        rewrite Hse. auto.
    + rewrite (challenge_not_found _ _ _ _ Hguard Hg Hv). simpl.
      rewrite Hse. auto.
Qed.

(** *** What an assignment into [users] can disturb *)
Lemma js_set_own_other o k1 k2 r :
  k1 <> k2 -> own (js_set o k1 r) !! k2 = own o !! k2.
Proof.
  intros Hne. unfold js_set.
  destruct (String.eqb k1 "__proto__"); [destruct (own o !! k1)|]; simpl;
    rewrite ?lookup_insert_ne by assumption; reflexivity.
Qed.

Lemma js_set_own_same o k r :
  k <> "__proto__" -> own (js_set o k r) !! k = Some r.
Proof.
  intros Hne. unfold js_set.
  destruct (String.eqb_spec k "__proto__") as [->|_]; [congruence|].
  simpl. apply lookup_insert_eq.
Qed.

Lemma js_get_falsy_not_own o k :
  truthy_val (js_get o k) = false -> own o !! k = None.
Proof.
  unfold js_get. destruct (own o !! k); [discriminate|reflexivity].
Qed.

(** [register] either refuses, or assigns one record under a name whose
    lookup was falsy.  It never touches the session. *)
Lemma register_frame (req : Request) st :
  let st' := exec (register req) st in
  session st' = session st
  /\ disk_writable st' = disk_writable st
  /\ rng st' = rng st
  /\ (store st' = store st
      \/ (store st' = registered_object st req
          /\ own (store st) !! to_key (body_user req) = None)).
Proof.
  intros st'. subst st'. unfold exec at 1 2 3 4 5.
  destruct (negb (String.eqb (method req) "POST") || negb (truthy (body_user req))
            || negb (truthy (body_salt req)) || negb (truthy (body_verifier req)))
    eqn:Hguard.
  - rewrite (register_bad_request _ _ Hguard). simpl. auto.
  - apply well_formed_register_dec in Hguard.
    destruct (getUser_frame st (body_user req))
      as (v & Hg & Hv1 & Hv2 & _ & _ & Hdw & Hrng & Hse & _).
    pose proof (store_after_getUser st (body_user req)) as Hst.
    assert (Hf : fst (getUser (body_user req) st) = Ok v) by now rewrite Hg.
    destruct (truthy_val v) eqn:Hv.
    + rewrite (register_conflict _ _ _ _ Hguard Hg Hv). simpl. auto.
    + assert (Hown : own (store st) !! to_key (body_user req) = None).
      { destruct (users st) as [o|] eqn:Hu; [|destruct (disk st) as [d|] eqn:Hd].
        - apply js_get_falsy_not_own. rewrite <- Hv1; [assumption|].
          right; congruence.
        - apply js_get_falsy_not_own. rewrite <- Hv1; [assumption|].
          left; congruence.
        - unfold store. rewrite Hu, Hd. apply lookup_empty. }
      destruct (disk_writable st) eqn:Hw.
      * rewrite (register_saved _ _ _ Hguard Hf Hv Hw). simpl.
        split_and!; auto.
      * rewrite (register_write_failed _ _ _ Hguard Hf Hv Hw). simpl.
        split_and!; auto.
Qed.


(** *** Routing *)
Lemma handleRequest_challenge (req : Request) st :
  path req = "/challenge" ->
  handleRequest step1 step2 req st = catch (challenge step1 req) onError st.
Proof. intros Hp. unfold handleRequest. now rewrite Hp. Qed.

Lemma handleRequest_register (req : Request) st :
  path req = "/register" ->
  handleRequest step1 step2 req st = catch (register req) onError st.
Proof. intros Hp. unfold handleRequest. now rewrite Hp. Qed.

(** [onError] only logs and answers 500. *)
Lemma catch_onError_frame (m : M PrivState unit) st :
  let st1 := exec m st in
  let st' := exec (catch m onError) st in
  users st' = users st1 /\ disk st' = disk st1
  /\ disk_writable st' = disk_writable st1
  /\ rng st' = rng st1 /\ session st' = session st1.
Proof.
  unfold exec, catch. destruct (m st) as [[[]|e] st1]; simpl; auto.
Qed.

(** [challenge] for a registered user, when the engine answers. *)
Lemma challenge_registered (req : Request) st name r B p :
  well_formed_challenge req ->
  query_user req = Some name ->
  stored st name = Some r ->
  step1 (rng st) (Some name) (salt r) (verifier r) = Some (B, p) ->
  challenge step1 req st
  = (Ok tt,
     emit (Send (mkResp OK (Some "application/json")
                   (ChallengeJson (salt r) B)))
       (set_session (set_serverSession p (session st))
          (set_rng (S (rng st)) (exec (getUser (query_user req)) st)))).
Proof.
  intros Hwf Hname Hst H1.
  pose proof (getUser_stored _ _ _ Hst) as Hg. rewrite <- Hname in Hg.
  destruct (getUser_frame st (query_user req))
    as (_ & _ & _ & _ & _ & _ & _ & Hrng & Hse & _).
  rewrite <- Hrng, <- Hse.
  apply (challenge_issued _ _ _ _ _ _ Hwf Hg eq_refl).
  simpl. rewrite Hrng, Hname. exact H1.
Qed.

(** C6.  The session has a single [serverSession] slot.  A well-formed
    [/challenge] for a registered user, for which the engine produces
    [(B, p)], stores [p] there whatever the slot held before and
    answers 200 with the salt and [B]; an [/auth] that follows is
    decided by [step2] on [p] alone. *)
Theorem challenge_overwrites_serverSession
    (req : Request) st name r B p :
  well_formed_challenge req ->
  query_user req = Some name ->
  stored st name = Some r ->
  step1 (rng st) (Some name) (salt r) (verifier r) = Some (B, p) ->
  let st' := exec (challenge step1 req) st in
  session st' = mkSession (Some p) (loggedIn (session st)) (server (session st))
  /\ answered st st'
       [mkResp OK (Some "application/json") (ChallengeJson (salt r) B)]
  /\ (forall areq, well_formed_auth areq ->
        answered st' (exec (auth step2 areq) st')
          [match step2 p (body_A areq) (body_M1 areq) with
           | Some M2 => mkResp OK (Some "application/json") (AuthJson M2)
           | None => mkResp Unauthorized None (Text "Invalid credentials")
           end]).
Proof.
  intros Hwf Hname Hst H1 st'.
  pose proof (challenge_registered _ _ _ _ _ _ Hwf Hname Hst H1) as Hch.
  destruct (getUser_frame st (query_user req))
    as (_ & _ & _ & _ & _ & _ & _ & _ & _ & Hresp).
  assert (Hsess : session st'
                  = mkSession (Some p) (loggedIn (session st)) (server (session st))).
  { subst st'. unfold exec at 1. rewrite Hch. reflexivity. }
  split_and!.
  - exact Hsess.
  - subst st'. unfold answered, exec at 1. rewrite Hch. simpl.
    simpl_responses. now rewrite Hresp.
  - intros areq Hawf.
    assert (Hp : serverSession (session st') = Some p) by now rewrite Hsess.
    unfold answered, exec at 1.
    destruct (step2 p (body_A areq) (body_M1 areq)) as [M2|] eqn:H2.
    + rewrite (auth_verified step2 _ _ _ _ Hawf Hp H2). simpl.
      now simpl_responses.
    + rewrite (auth_rejected step2 _ _ _ Hawf Hp H2). simpl.
      now simpl_responses.
Qed.

(** C10.  [challenge] never writes [loggedIn], and neither does
    [register] nor any route other than [/auth]; in particular, on a
    session where [loggedIn] is true, a successful [/challenge]
    installs a new [serverSession] and leaves [loggedIn] true. *)
Theorem challenge_preserves_loggedIn (req : Request) st :
  loggedIn (session (exec (challenge step1 req) st)) = loggedIn (session st)
  /\ loggedIn (session (exec (register req) st)) = loggedIn (session st)
  /\ (path req <> "/auth" ->
      loggedIn (session (exec (handleRequest step1 step2 req) st))
      = loggedIn (session st))
  /\ (forall name r B p,
        loggedIn (session st) = Some true ->
        well_formed_challenge req ->
        query_user req = Some name ->
        stored st name = Some r ->
        step1 (rng st) (Some name) (salt r) (verifier r) = Some (B, p) ->
        loggedIn (session (exec (challenge step1 req) st)) = Some true
        /\ serverSession (session (exec (challenge step1 req) st)) = Some p).
Proof.
  destruct (challenge_frame req st) as (_ & _ & _ & Hch & _).
  destruct (register_frame req st) as (Hrg & _).
  split_and!.
  - exact Hch.
  - now rewrite Hrg.
  - intros Hp. unfold handleRequest.
    destruct (String.eqb (path req) "/challenge").
    { destruct (catch_onError_frame (challenge step1 req) st)
        as (_ & _ & _ & _ & ->). exact Hch. }
    destruct (String.eqb_spec (path req) "/auth") as [|_]; [contradiction|].
    destruct (String.eqb (path req) "/register").
    { destruct (catch_onError_frame (register req) st)
        as (_ & _ & _ & _ & ->). now rewrite Hrg. }
    reflexivity.
  - intros name r B p Hin Hwf Hname Hst H1.
    unfold exec.
    rewrite (challenge_registered _ _ _ _ _ _ Hwf Hname Hst H1). simpl. auto.
Qed.

(** *** Names that every object inherits *)
Lemma inherited_method_cases k :
  inherited_method k = true -> k ∈ object_prototype_methods.
Proof.
  unfold inherited_method. intros H.
  apply existsb_exists in H as (x & Hin & Heq).
  apply String.eqb_eq in Heq as ->. now apply list_elem_of_In.
Qed.

Lemma js_get_inherited o k :
  own o !! k = None -> inherited_method k = true -> js_get o k = VFunction k.
Proof.
  intros Hown Hin. unfold js_get. rewrite Hown.
  apply inherited_method_cases in Hin. unfold object_prototype_methods in Hin.
  repeat (apply elem_of_cons in Hin as [->|Hin];
          [destruct (proto o); reflexivity|]).
  now apply elem_of_nil in Hin.
Qed.

(** On an object that still has [Object.prototype], any other name is
    found exactly when it is registered. *)
Lemma js_get_ordinary o k :
  proto o = None -> inherited_method k = false -> k <> "__proto__" ->
  js_get o k = match own o !! k with Some r => VRecord r | None => VUndefined end.
Proof.
  intros Hp Hin Hne. unfold js_get, object_prototype_get. rewrite Hp, Hin.
  destruct (String.eqb_spec k "__proto__"); [contradiction|]. reflexivity.
Qed.

Lemma getUser_inherited st (name : string) :
  inherited_method name = true ->
  stored st name = None ->
  disk st <> None \/ users st <> None ->
  getUser (Some name) st = (Ok (VFunction name), exec (getUser (Some name)) st).
Proof.
  intros Hin Hst Hloaded.
  destruct (getUser_frame st (Some name)) as (v & Hg & Hv & _).
  rewrite Hg, (Hv Hloaded). simpl. now rewrite (js_get_inherited _ _ Hst Hin).
Qed.

(** C8 (as the code behaves).  [/challenge] for an inherited property
    name such as "toString", which nobody registered, is not answered
    404 once the store is an object: the lookup yields a function, so
    the engine is run on an undefined salt and verifier, and the answer
    is 200 with a challenge (and a [serverSession] is installed) or,
    if the engine throws, 500. *)
Theorem challenge_inherited_name_is_not_404 (req : Request) st name :
  path req = "/challenge" ->
  well_formed_challenge req ->
  query_user req = Some name ->
  inherited_method name = true ->
  stored st name = None ->
  disk st <> None \/ users st <> None ->
  let st' := exec (handleRequest step1 step2 req) st in
  answered st st'
    [match step1 (rng st) (Some name) None None with
     | Some (B, _) => mkResp OK (Some "application/json") (ChallengeJson None B)
     | None => mkResp Internal_Server_Error None NoBody
     end]
  /\ (forall B p, step1 (rng st) (Some name) None None = Some (B, p) ->
        serverSession (session st') = Some p).
Proof.
  intros Hpath Hwf Hname Hin Hst Hloaded st'. subst st'.
  pose proof (getUser_inherited _ _ Hin Hst Hloaded) as Hg. rewrite <- Hname in Hg.
  destruct (getUser_frame st (query_user req))
    as (_ & _ & _ & _ & _ & _ & _ & Hrng & _ & Hresp).
  unfold answered, exec at 1 2. rewrite (handleRequest_challenge _ _ Hpath).
  unfold catch.
  destruct (step1 (rng st) (Some name) None None) as [[B p]|] eqn:H1.
  - rewrite (challenge_issued _ _ _ _ B p Hwf Hg eq_refl);
      [|simpl; now rewrite Hrng, Hname].
    simpl. simpl_responses. rewrite Hresp. split; [reflexivity|].
    intros B' p' [= _ ->]. reflexivity.
  - rewrite (challenge_engine_throws _ _ _ _ Hwf Hg eq_refl);
      [|simpl; now rewrite Hrng, Hname].
    unfold_monad. simpl. simpl_responses. rewrite Hresp.
    split; [reflexivity|]. intros B' p' [=].
Qed.

(** For every other unregistered name the answer is 404 and the
    session is left alone. *)
Lemma challenge_unknown_user_not_found (req : Request) st name :
  well_formed_challenge req ->
  query_user req = Some name ->
  stored st name = None ->
  proto (store st) = None ->
  inherited_method name = false -> name <> "__proto__" ->
  let st' := exec (challenge step1 req) st in
  answered st st' [mkResp Not_Found None (Text "User not found")]
  /\ session st' = session st.
Proof.
  intros Hwf Hname Hst Hp Hin Hne st'. subst st'.
  destruct (getUser_frame st (query_user req))
    as (v & Hg & Hv1 & Hv2 & _ & _ & _ & _ & Hse & Hresp).
  assert (Hv : truthy_val v = false).
  { destruct (users st) as [o|] eqn:Hu; [|destruct (disk st) as [d|] eqn:Hd].
    - rewrite Hv1 by (right; congruence). rewrite Hname. simpl.
      rewrite (js_get_ordinary _ _ Hp Hin Hne). unfold stored in Hst.
      now rewrite Hst.
    - rewrite Hv1 by (left; congruence). rewrite Hname. simpl.
      rewrite (js_get_ordinary _ _ Hp Hin Hne). unfold stored in Hst.
      now rewrite Hst.
    - now rewrite Hv2. }
  unfold answered, exec at 1 2.
  rewrite (challenge_not_found _ _ _ _ Hwf Hg Hv). simpl.
  simpl_responses. now rewrite Hresp, Hse.
Qed.

(** *** Exact matching of ordinary names *)

(** Assigning under [k1] does not change what any other name reads,
    unless the assignment went to the prototype. *)
Lemma js_get_js_set_other o k1 k2 r :
  k1 <> k2 -> k1 <> "__proto__" ->
  js_get (js_set o k1 r) k2 = js_get o k2.
Proof.
  intros Hne Hp. unfold js_get. rewrite (js_set_own_other _ _ _ _ Hne).
  unfold js_set. destruct (String.eqb_spec k1 "__proto__"); [contradiction|].
  reflexivity.
Qed.

Lemma js_get_js_set_same o k r :
  k <> "__proto__" -> js_get (js_set o k r) k = VRecord r.
Proof. intros Hp. apply js_get_own. now apply js_set_own_same. Qed.

(** C9 (as the code behaves).  A lookup of an inherited property name
    such as "toString" succeeds although the name was never registered:
    [getUser] returns a function, and [/register] for that name is
    refused with 403 "User already exists", leaving it unregistered. *)
Theorem lookup_inherited_name_succeeds (req : Request) st name :
  well_formed_register req ->
  body_user req = Some name ->
  inherited_method name = true ->
  stored st name = None ->
  disk st <> None \/ users st <> None ->
  fst (getUser (Some name) st) = Ok (VFunction name)
  /\ truthy_val (VFunction name) = true
  /\ answered st (exec (register req) st)
       [mkResp Forbidden None (Text "User already exists")]
  /\ stored (exec (register req) st) name = None.
Proof.
  intros Hwf Hname Hin Hst Hloaded.
  pose proof (getUser_inherited _ _ Hin Hst Hloaded) as Hg.
  split_and!; [now rewrite Hg|reflexivity| |].
  - rewrite <- Hname in Hg.
    destruct (getUser_frame st (body_user req))
      as (_ & _ & _ & _ & _ & _ & _ & _ & _ & Hresp).
    unfold answered, exec at 1.
    rewrite (register_conflict _ _ _ _ Hwf Hg eq_refl). simpl.
    simpl_responses. now rewrite Hresp.
  - rewrite <- Hname in Hg. unfold stored, exec.
    rewrite (register_conflict _ _ _ _ Hwf Hg eq_refl). simpl.
    rewrite store_emit. fold (exec (getUser (body_user req)) st).
    now rewrite store_after_getUser.
Qed.

(** *** The missing snapshot *)

(** When the cache is unset and the file is missing or unreadable, the
    first lookup does not throw: it returns null for every name and sets
    the cache to the empty object.  A [/challenge] arriving first is
    answered 404, a [/register] arriving first is answered 204, and a
    [/register] after that first lookup, for a name the empty object
    does not inherit, is registered, written to the file, and answered
    204. *)
Lemma missing_snapshot_is_empty_store st u :
  users st = None ->
  disk st = None ->
  let st1 := exec (getUser u) st in
  getUser u st = (Ok VNull, st1)
  /\ users st1 = Some empty_object
  /\ session st1 = session st
  /\ answered st st1 []
  /\ (forall req, path req = "/challenge" -> well_formed_challenge req ->
        answered st (exec (handleRequest step1 step2 req) st)
          [mkResp Not_Found None (Text "User not found")])
  /\ (forall req, well_formed_register req -> disk_writable st = true ->
        answered st (exec (register req) st) [mkResp No_Content None NoBody])
  /\ (forall req name,
        well_formed_register req -> body_user req = Some name ->
        inherited_method name = false -> name <> "__proto__" ->
        disk_writable st = true ->
        let st2 := exec (register req) st1 in
        answered st1 st2 [mkResp No_Content None NoBody]
        /\ stored st2 name = Some (mkUser (body_salt req) (body_verifier req))
        /\ disk st2 = Some {[ name := mkUser (body_salt req) (body_verifier req) ]}).
Proof.
  intros Hu Hd st1. subst st1.
  pose proof (getUser_missing st u Hu Hd) as Hg.
  assert (Hex : forall u', exec (getUser u') st
                = set_users (Some empty_object)
                    (emit (Console "unable to read file ./thinbus-srp.db.json, create empty user database")
                       (emit (ReadFile false) st))).
  { intros u'. unfold exec. now rewrite (getUser_missing st u' Hu Hd). }
  split_and!.
  - rewrite Hg. now rewrite Hex.
  - now rewrite Hex.
  - now rewrite Hex.
  - unfold answered. rewrite Hex. simpl_responses. now rewrite app_nil_r.
  - intros req Hpath Hwf. unfold answered, exec.
    rewrite (handleRequest_challenge _ _ Hpath). unfold catch.
    erewrite challenge_not_found;
      [ | exact Hwf | apply (getUser_missing _ _ Hu Hd) | reflexivity ].
    simpl. now simpl_responses.
  - intros req Hwf Hw. unfold answered, exec at 1.
    erewrite register_saved;
      [ | exact Hwf | now rewrite (getUser_missing _ _ Hu Hd) | reflexivity
        | exact Hw ].
    simpl. rewrite Hex. now simpl_responses.
  - intros req name Hwf Hname Hin Hne Hw st2. subst st2. rewrite Hex.
    set (st1 := set_users _ _).
    assert (Hst1 : store st1 = empty_object) by reflexivity.
    assert (Hlk : fst (getUser (body_user req) st1) = Ok VUndefined).
    { erewrite getUser_cached by reflexivity. rewrite Hname. simpl.
      now rewrite js_get_ordinary. }
    unfold answered, stored, exec at 1 2 3.
    rewrite (register_saved _ _ _ Hwf Hlk eq_refl Hw). simpl.
    unfold registered_object. rewrite Hst1, Hname. simpl.
    unfold js_set. destruct (String.eqb_spec name "__proto__"); [contradiction|].
    simpl. split_and!.
    + now simpl_responses.
    + unfold store. simpl. apply lookup_insert_eq.
    + reflexivity.
Qed.

(** C7 (as the code behaves).  When the cache is unset and the file is
    missing or unreadable, the first lookup returns null and sets the
    cache to the empty object [{}].  A [/register] that follows is not
    served as on an empty store for every name: for a name that [{}]
    inherits ("toString", "constructor", ...) and for "__proto__" the
    lookup is truthy, so the request is answered 403 "User already
    exists", nothing is registered and no file is written. *)
Theorem register_after_missing_snapshot_refuses_inherited_names
    st u (req : Request) name :
  users st = None ->
  disk st = None ->
  well_formed_register req ->
  body_user req = Some name ->
  inherited_method name = true \/ name = "__proto__" ->
  let st1 := exec (getUser u) st in
  let st2 := exec (register req) st1 in
  getUser u st = (Ok VNull, st1)
  /\ users st1 = Some empty_object
  /\ answered st1 st2 [mkResp Forbidden None (Text "User already exists")]
  /\ stored st2 name = None
  /\ users st2 = Some empty_object
  /\ disk st2 = None.
Proof.
  intros Hu Hd Hwf Hname Hinh st1 st2.
  assert (Hst1 : st1 = set_users (Some empty_object)
                         (emit (Console "unable to read file ./thinbus-srp.db.json, create empty user database")
                            (emit (ReadFile false) st))).
  { unfold st1, exec. now rewrite (getUser_missing st u Hu Hd). }
  assert (Hus1 : users st1 = Some empty_object) by now rewrite Hst1.
  assert (Hd1 : disk st1 = None) by (rewrite Hst1; exact Hd).
  assert (Htruthy : truthy_val (js_get empty_object name) = true).
  { destruct Hinh as [Hin| ->]; [|reflexivity].
    rewrite (js_get_inherited empty_object name); [reflexivity| |exact Hin].
    apply lookup_empty. }
  assert (Hg : getUser (body_user req) st1
               = (Ok (js_get empty_object name), st1)).
  { rewrite (getUser_cached st1 _ _ Hus1), Hname. reflexivity. }
  assert (Hst2 : st2 = emit (Send (mkResp Forbidden None
                                     (Text "User already exists"))) st1).
  { unfold st2, exec. now rewrite (register_conflict _ _ _ _ Hwf Hg Htruthy). }
  split_and!.
  - rewrite (getUser_missing st u Hu Hd). now rewrite Hst1.
  - exact Hus1.
  - rewrite Hst2. unfold answered. now simpl_responses.
  - rewrite Hst2. unfold stored, store. simpl. rewrite Hus1. apply lookup_empty.
  - rewrite Hst2. exact Hus1.
  - rewrite Hst2. exact Hd1.
Qed.

(** *** Registration and the snapshot *)






(** C5 (as the code behaves).  On a server whose snapshot is missing, a
    first [/register] for the name "__proto__" is acknowledged with 204
    after a write, but the assignment replaced the prototype of [users]
    instead of adding a property: the snapshot written is empty and the
    name is not in the store. *)
Theorem register_proto_name_is_not_persisted (req : Request) st :
  users st = None ->
  disk st = None ->
  disk_writable st = true ->
  well_formed_register req ->
  body_user req = Some "__proto__" ->
  let st' := exec (register req) st in
  let record := mkUser (body_salt req) (body_verifier req) in
  answered st st' [mkResp No_Content None NoBody]
  /\ trace st'
     = trace (exec (getUser (body_user req)) st)
       ++ [WriteFile ∅; Send (mkResp No_Content None NoBody)]
  /\ disk st' = Some ∅
  /\ stored st' "__proto__" = None
  /\ store st' = mkObj ∅ (Some record).
Proof.
  intros Hu Hd Hw Hwf Hname st' record.
  assert (Hg : fst (getUser (body_user req) st) = Ok VNull)
    by now rewrite (getUser_missing _ _ Hu Hd).
  assert (Hobj : registered_object st req = mkObj ∅ (Some record)).
  { unfold registered_object, store. rewrite Hu, Hd, Hname. reflexivity. }
  assert (Hst' : st' = snd (register req st)) by reflexivity.
  rewrite (register_saved _ _ _ Hwf Hg eq_refl Hw) in Hst'. simpl in Hst'.
  rewrite Hobj in Hst'.
  destruct (getUser_frame st (body_user req))
    as (_ & _ & _ & _ & _ & _ & _ & _ & _ & Hresp).
  split_and!; rewrite Hst'; try reflexivity.
  - unfold answered. simpl_responses. now rewrite Hresp.
  - simpl. now rewrite <- app_assoc.
Qed.

End StoreProperties.

(** * The statements on concrete requests *)

Import Toy.

(** The whole login round trip on a fresh server, followed by the same
    [/auth] request once more. *)
Example login_then_replay :
  responses (trace (run [ POST_register "alice" "5a" "7f";
                          GET_challenge "alice";
                          POST_auth "alice" "aa" "aa:7f:b";
                          POST_auth "alice" "aa" "aa:7f:b" ] (boot None)))
  = [ mkResp 204 None NoBody;
      mkResp 200 (Some "application/json") (ChallengeJson (Some "5a") "b");
      mkResp 200 (Some "application/json") (AuthJson "M2:aa:7f:b");
      mkResp 200 (Some "application/json") (AuthJson "M2:aa:7f:b") ].
Proof. vm_compute. reflexivity. Qed.

(** Names differing in case are different users. *)
Example names_are_case_sensitive :
  responses (trace (run [ POST_register "alice" "5a" "7f";
                          GET_challenge "Alice";
                          POST_register "Alice" "11" "22";
                          GET_challenge "Alice" ] (boot None)))
  = [ mkResp 204 None NoBody;
      mkResp 404 None (Text "User not found");
      mkResp 204 None NoBody;
      mkResp 200 (Some "application/json") (ChallengeJson (Some "11") "b") ].
Proof. vm_compute. reflexivity. Qed.

(** After "__proto__" went to the prototype, the names "salt" and
    "verifier" read as registered. *)
Example proto_registration_shadows_other_names :
  responses (trace (run [ GET_challenge "salt";
                          POST_register "salt" "11" "22" ]
                        (run [ POST_register "__proto__" "5a" "7f" ] (boot None))))
  = [ mkResp 204 None NoBody;
      mkResp 500 None NoBody;
      mkResp 403 None (Text "User already exists") ].
Proof. vm_compute. reflexivity. Qed.

Lemma auth_without_challenge_is_forbidden_witness :
  responses (trace (exec (auth step2 (POST_auth "alice" "aa" "aa:7f:b")) loaded))
  = [mkResp 403 None (Text "Called ./auth before ./challenge")].
Proof.
  destruct (auth_without_challenge_is_forbidden step2
              (POST_auth "alice" "aa" "aa:7f:b") loaded) as (H & _).
  - repeat split.
  - reflexivity.
  - exact H.
Defined.

Lemma auth_failure_keeps_challenge_state_witness :
  loggedIn (session (exec (auth step2 (POST_auth "alice" "aa" "wrong")) challenged))
  = Some false
  /\ serverSession (session (exec (auth step2 (POST_auth "alice" "aa" "wrong")) challenged))
     = Some alice_state.
Proof.
  destruct (auth_failure_keeps_challenge_state step2
              (POST_auth "alice" "aa" "wrong") challenged alice_state)
    as (H1 & H2 & _).
  - repeat split.
  - reflexivity.
  - reflexivity.
  - exact (conj H1 H2).
Defined.

Lemma auth_success_leaves_serverSession_witness :
  serverSession
    (session (exec (auth step2 (POST_auth "alice" "aa" "aa:7f:b")) challenged))
  = Some alice_state.
Proof.
  destruct (auth_success_leaves_serverSession step2
              (POST_auth "alice" "aa" "aa:7f:b") challenged alice_state "M2:aa:7f:b")
    as (_ & _ & H & _).
  - repeat split.
  - reflexivity.
  - reflexivity.
  - exact H.
Defined.

Lemma register_existing_user_is_conflict_witness :
  stored (exec (register (POST_register "alice" "66" "77")) loaded) "alice"
  = Some alice
  /\ answered loaded (exec (register (POST_register "alice" "66" "77")) loaded)
       [mkResp 403 None (Text "User already exists")].
Proof.
  destruct (register_existing_user_is_conflict
              (POST_register "alice" "66" "77") loaded "alice" alice)
    as (H1 & _ & _ & H2).
  - reflexivity.
  - reflexivity.
  - split; [exact H1|]. apply H2. repeat split.
Defined.

(** A [/register] for a registered name with an empty salt is answered
    400, not 403: the parameter check comes before the lookup. *)
Lemma register_existing_user_empty_salt_counterexample :
  ~ (forall (st : State PrivState) (req : Request) name r,
        method req = "POST" ->
        body_user req = Some name ->
        stored st name = Some r ->
        answered st (exec (register req) st)
          [mkResp Forbidden None (Text "User already exists")]).
Proof.
  intros H.
  specialize (H loaded (POST_register "alice" "" "77") "alice" alice
                eq_refl eq_refl eq_refl).
  vm_compute in H. discriminate H.
Qed.

Lemma challenge_overwrites_serverSession_witness :
  serverSession (session challenged) = Some alice_state
  /\ session (exec (challenge step1 (GET_challenge "alice")) challenged)
     = mkSession (Some (mkPriv (Some "alice") (Some "7f") 1)) None None.
Proof.
  split; [reflexivity|].
  destruct (challenge_overwrites_serverSession step1 step2
              (GET_challenge "alice") challenged "alice" alice
              "bb" (mkPriv (Some "alice") (Some "7f") 1)) as (H & _).
  - repeat split.
  - reflexivity.
  - reflexivity.
  - reflexivity.
  - exact H.
Defined.

Lemma challenge_preserves_loggedIn_witness :
  let st := run [POST_auth "alice" "aa" "aa:7f:b"] challenged in
  loggedIn (session st) = Some true
  /\ loggedIn (session (exec (challenge step1 (GET_challenge "alice")) st))
     = Some true
  /\ serverSession (session (exec (challenge step1 (GET_challenge "alice")) st))
     = Some (mkPriv (Some "alice") (Some "7f") 1).
Proof.
  intros st. split; [reflexivity|].
  destruct (challenge_preserves_loggedIn step1 step2 (GET_challenge "alice") st)
    as (_ & _ & _ & H).
  apply (H "alice" alice "bb"); try reflexivity. repeat split.
Defined.

Lemma challenge_inherited_name_is_not_404_witness :
  stored loaded "toString" = None
  /\ answered loaded
       (exec (handleRequest step1 step2 (GET_challenge "toString")) loaded)
       [mkResp 500 None NoBody].
Proof.
  split; [reflexivity|].
  destruct (challenge_inherited_name_is_not_404 step1 step2
              (GET_challenge "toString") loaded "toString") as (H & _).
  - reflexivity.
  - repeat split.
  - reflexivity.
  - reflexivity.
  - reflexivity.
  - left. discriminate.
  - exact H.
Defined.

Lemma lookup_inherited_name_succeeds_witness :
  stored loaded "toString" = None
  /\ fst (getUser (Some "toString") loaded) = Ok (VFunction "toString")
  /\ answered loaded (exec (register (POST_register "toString" "11" "22")) loaded)
       [mkResp 403 None (Text "User already exists")].
Proof.
  split; [reflexivity|].
  destruct (lookup_inherited_name_succeeds
              (POST_register "toString" "11" "22") loaded "toString")
    as (H1 & _ & H2 & _).
  - repeat split.
  - reflexivity.
  - reflexivity.
  - reflexivity.
  - left. discriminate.
  - exact (conj H1 H2).
Defined.

(** On a server without a file: the first lookup finds nobody, then
    "toString" cannot be registered while "alice" can. *)
Example registers_after_missing_snapshot :
  responses (trace (run [ GET_challenge "toString";
                          POST_register "toString" "11" "22";
                          POST_register "alice" "5a" "7f" ] (boot None)))
  = [ mkResp 404 None (Text "User not found");
      mkResp 403 None (Text "User already exists");
      mkResp 204 None NoBody ].
Proof. vm_compute. reflexivity. Qed.

Lemma register_after_missing_snapshot_refuses_inherited_names_witness :
  let st1 := exec (getUser (Some "alice")) (boot None) in
  users st1 = Some empty_object
  /\ answered st1 (exec (register (POST_register "toString" "11" "22")) st1)
       [mkResp 403 None (Text "User already exists")]
  /\ disk (exec (register (POST_register "toString" "11" "22")) st1) = None.
Proof.
  destruct (register_after_missing_snapshot_refuses_inherited_names
              (boot None) (Some "alice") (POST_register "toString" "11" "22")
              "toString") as (_ & H1 & H2 & _ & _ & H3).
  - reflexivity.
  - reflexivity.
  - repeat split.
  - reflexivity.
  - left. reflexivity.
  - exact (conj H1 (conj H2 H3)).
Defined.

Lemma register_proto_name_is_not_persisted_witness :
  answered (boot None)
    (exec (register (POST_register "__proto__" "5a" "7f")) (boot None))
    [mkResp 204 None NoBody]
  /\ disk (exec (register (POST_register "__proto__" "5a" "7f")) (boot None))
     = Some ∅.
Proof.
  destruct (register_proto_name_is_not_persisted
              (POST_register "__proto__" "5a" "7f") (boot None))
    as (H1 & _ & H2 & _).
  - reflexivity.
  - reflexivity.
  - reflexivity.
  - repeat split.
  - reflexivity.
  - exact (conj H1 H2).
Defined.

(** * Further properties of the back end *)

Lemma file_reads_snoc (t : list Event) (e : Event) :
  file_reads (t ++ [e]) = file_reads t + (if is_read e then 1 else 0).
Proof.
  unfold file_reads. rewrite List.filter_app, length_app. simpl.
  destruct (is_read e); reflexivity.
Qed.

Section RoutingProperties.

Context {PrivState : Type}.
Variable step1 : nat -> field -> field -> field -> option (string * PrivState).
Variable step2 : PrivState -> field -> field -> option string.

Implicit Types (st : State PrivState) (req : Request).

(** Runs a request through the router symbolically, one goal per path
    through the handlers. *)
Ltac handler_cases :=
  unfold handleRequest, challenge, auth, register, getUser, saveUser,
    writeFile, engine_step1;
  unfold_monad; cbv zeta;
  repeat (case_match; simpl in *; simplify_eq);
  simpl in *.

(** X1.  The router never lets an exception escape.  On each of the
    three SRP routes it sends exactly one response, whatever the request
    and the state; on any other path it sends none and only calls
    [next]. *)
Theorem handleRequest_answers_exactly_once req st :
  let st' := exec (handleRequest step1 step2 req) st in
  fst (handleRequest step1 step2 req st) = Ok tt
  /\ (srp_route (path req) = true -> exists r, answered st st' [r])
  /\ (srp_route (path req) = false -> st' = emit Next st).
Proof.
  unfold srp_route, answered.
  handler_cases; split_and!; try reflexivity; try discriminate;
    intros _; simpl_responses; eexists; reflexivity.
Qed.

Lemma answered_inv st st' (r r' : Response) :
  answered st st' [r] -> answered st st' [r'] -> r = r'.
Proof.
  unfold answered. intros H1 H2. rewrite H1 in H2.
  apply app_inv_head in H2. congruence.
Qed.


(** X3.  The file changes only through a well-formed [/register] that is
    answered 204, and it then holds exactly the own properties of the
    cached object; every other request, on any route, leaves the file as
    it was. *)
Theorem file_changes_only_on_acknowledged_register req st :
  let st' := exec (handleRequest step1 step2 req) st in
  disk st' = disk st
  \/ (path req = "/register"
      /\ well_formed_register req
      /\ answered st st' [mkResp No_Content None NoBody]
      /\ disk st' = Some (own (store st'))).
Proof.
  unfold answered, store.
  handler_cases; try (left; first [reflexivity | assumption]).
  all: right; split_and!;
    [ now apply String.eqb_eq
    | now apply well_formed_register_dec
    | now simpl_responses
    | reflexivity ].
Qed.

(** X4.  Once [users] is set, a request is served from the cache: over
    any sequence of requests that start after that, the file is not
    read again, the trace grows only by events other than file reads,
    and [users] stays set (only [cleanup] unsets it). *)
Theorem set_cache_is_not_read_again (reqs : list Request) st :
  users st <> None ->
  let st' := serve step1 step2 reqs st in
  users st' <> None
  /\ file_reads (trace st') = file_reads (trace st)
  /\ exists events, trace st' = trace st ++ events
       /\ Forall (fun e => is_read e = false) events.
Proof.
  revert st. induction reqs as [|req reqs IH]; intros st Hu; simpl.
  - split_and!; [assumption|reflexivity|].
    exists []. split; [now rewrite app_nil_r | constructor].
  - assert (Hstep : users (exec (handleRequest step1 step2 req) st) <> None
                    /\ exists events,
                         trace (exec (handleRequest step1 step2 req) st)
                         = trace st ++ events
                         /\ Forall (fun e => is_read e = false) events).
    { clear IH. revert Hu. handler_cases; intros Hu;
        (split; [congruence|]);
        first [ contradiction
              | eexists; split;
                [ rewrite <- ?app_assoc; reflexivity
                | repeat constructor ] ]. }
    destruct Hstep as (Hu' & ev1 & Ht1 & Hf1).
    destruct (IH _ Hu') as (Hu'' & Hn & ev2 & Ht2 & Hf2).
    split_and!; [exact Hu''| |].
    + rewrite Hn, Ht1. unfold file_reads.
      rewrite List.filter_app, length_app.
      assert (Hz : length (List.filter is_read ev1) = 0).
      { clear Ht1. induction Hf1 as [|e l He _ IHl]; simpl; [reflexivity|].
        now rewrite He. }
      lia.
    + exists (ev1 ++ ev2). split.
      * now rewrite Ht2, Ht1, app_assoc.
      * now apply Forall_app.
Qed.



Lemma mirrored_unloaded st : users st = None -> mirrored st.
Proof.
  intros Hu. unfold mirrored, store. rewrite Hu.
  destruct (disk st); [left; reflexivity | right; split; reflexivity].
Qed.



(** X6.  When the write fails, [/register] is answered 500 and the file
    is unchanged, but the record stays in the cache ([saveUser] assigns
    before it writes): the name is registered for the rest of the
    process, and the same request sent again is answered 403 "User
    already exists". *)
Theorem failed_write_leaves_record_in_cache req st name v :
  path req = "/register" ->
  well_formed_register req ->
  body_user req = Some name ->
  name <> "__proto__" ->
  fst (getUser (body_user req) st) = Ok v ->
  truthy_val v = false ->
  disk_writable st = false ->
  let st' := exec (handleRequest step1 step2 req) st in
  answered st st' [mkResp Internal_Server_Error None NoBody]
  /\ disk st' = disk st
  /\ stored st' name = Some (mkUser (body_salt req) (body_verifier req))
  /\ answered st' (exec (handleRequest step1 step2 req) st')
       [mkResp Forbidden None (Text "User already exists")].
Proof.
  intros Hpath Hwf Hname Hne Hg Hv Hw st'.
  destruct (getUser_frame st (body_user req))
    as (_ & _ & _ & _ & _ & Hd & _ & _ & _ & Hresp).
  assert (Hst' : st' = emit (Send (mkResp Internal_Server_Error None NoBody))
                         (emit (Console "write failed")
                            (emit WriteFailed
                               (set_users (Some (registered_object st req))
                                  (exec (getUser (body_user req)) st))))).
  { subst st'. unfold exec at 1. rewrite (handleRequest_register _ _ _ _ Hpath).
    unfold catch. rewrite (register_write_failed _ _ _ Hwf Hg Hv Hw).
    reflexivity. }
  assert (Hstored : stored st' name
                    = Some (mkUser (body_salt req) (body_verifier req))).
  { rewrite Hst'. unfold stored, store. simpl. unfold registered_object.
    rewrite Hname. simpl. now apply js_set_own_same. }
  split_and!.
  - rewrite Hst'. unfold answered. simpl_responses. now rewrite Hresp.
  - rewrite Hst'. simpl. exact Hd.
  - exact Hstored.
  - pose proof (getUser_stored _ _ _ Hstored) as Hg'. rewrite <- Hname in Hg'.
    destruct (getUser_frame st' (body_user req))
      as (_ & _ & _ & _ & _ & _ & _ & _ & _ & Hresp').
    unfold answered, exec at 1. rewrite (handleRequest_register _ _ _ _ Hpath).
    unfold catch. rewrite (register_conflict _ _ _ _ Hwf Hg' eq_refl).
    simpl_responses. now rewrite Hresp'.
Qed.

(** X7.  When the engine throws during [/challenge] for a registered
    user, the answer is 500 and neither the session (no [serverSession]
    is installed) nor the store nor the file changes. *)
Theorem challenge_engine_failure_is_500 req st name r :
  path req = "/challenge" ->
  well_formed_challenge req ->
  query_user req = Some name ->
  stored st name = Some r ->
  step1 (rng st) (Some name) (salt r) (verifier r) = None ->
  let st' := exec (handleRequest step1 step2 req) st in
  answered st st' [mkResp Internal_Server_Error None NoBody]
  /\ session st' = session st
  /\ store st' = store st
  /\ disk st' = disk st.
Proof.
  intros Hpath Hwf Hname Hst H1 st'.
  pose proof (getUser_stored _ _ _ Hst) as Hg. rewrite <- Hname in Hg.
  destruct (getUser_frame st (query_user req))
    as (_ & _ & _ & _ & _ & Hd & _ & Hrng & Hse & Hresp).
  pose proof (store_after_getUser st (query_user req)) as Hstore.
  assert (Hst' : st' = emit (Send (mkResp Internal_Server_Error None NoBody))
                         (emit (Console "step1")
                            (set_rng (S (rng (exec (getUser (query_user req)) st)))
                               (exec (getUser (query_user req)) st)))).
  { subst st'. unfold exec at 1. rewrite (handleRequest_challenge _ _ _ _ Hpath).
    unfold catch. rewrite (challenge_engine_throws _ _ _ _ _ Hwf Hg eq_refl).
    - reflexivity.
    - simpl. now rewrite Hrng, Hname. }
  rewrite Hst'. split_and!.
  - unfold answered. simpl_responses. now rewrite Hresp.
  - simpl. exact Hse.
  - exact Hstore.
  - simpl. exact Hd.
Qed.

(** X8.  [auth] only checks that [user] is present: two well-formed
    requests with the same [A] and [M1] have the same outcome whatever
    user names they carry.  The identity that counts is the one inside
    the challenge state. *)
Theorem auth_ignores_the_username req req' st :
  well_formed_auth req ->
  well_formed_auth req' ->
  body_A req = body_A req' ->
  body_M1 req = body_M1 req' ->
  auth step2 req st = auth step2 req' st.
Proof.
  intros Hwf Hwf' HA HM.
  destruct (serverSession (session st)) as [p|] eqn:Hs.
  - destruct (step2 p (body_A req) (body_M1 req)) as [M2|] eqn:H2.
    + rewrite (auth_verified step2 _ _ _ _ Hwf Hs H2).
      rewrite HA, HM in H2. now rewrite (auth_verified step2 _ _ _ _ Hwf' Hs H2).
    + rewrite (auth_rejected step2 _ _ _ Hwf Hs H2).
      rewrite HA, HM in H2. now rewrite (auth_rejected step2 _ _ _ Hwf' Hs H2).
  - now rewrite (auth_no_state step2 _ _ Hwf Hs), (auth_no_state step2 _ _ Hwf' Hs).
Qed.

(** X9.  [cleanup] unsets the cache and leaves the file; when the file
    mirrors the cache, the store the next lookup loads has the same
    registered records and the default prototype. *)
Theorem cleanup_reloads_registered_users st :
  mirrored st ->
  let st' := exec cleanup st in
  users st' = None
  /\ disk st' = disk st
  /\ proto (store st') = None
  /\ (forall name, stored st' name = stored st name).
Proof.
  intros Hm. unfold cleanup, exec, modify, stored. simpl.
  unfold store at 1 2. simpl.
  destruct Hm as [Hd|[Hd He]]; rewrite Hd; simpl; split_and!; try reflexivity.
  intros name. now rewrite He.
Qed.


(** X11.  On each route, a request with the wrong method or with a
    missing or empty parameter is answered 400 and nothing else happens:
    no lookup, no file access, no change to the session.  The parameter
    check comes before the 403 and 404 cases. *)
Theorem malformed_request_is_answered_400_without_effect req st :
  (path req = "/challenge" /\ ~ well_formed_challenge req)
  \/ (path req = "/auth" /\ ~ well_formed_auth req)
  \/ (path req = "/register" /\ ~ well_formed_register req) ->
  exists msg,
    handleRequest step1 step2 req st
    = (Ok tt, emit (Send (mkResp Bad_Request None (Text msg))) st).
Proof.
  intros [[Hp Hn]|[[Hp Hn]|[Hp Hn]]].
  - rewrite (handleRequest_challenge _ _ _ _ Hp). unfold catch.
    rewrite challenge_bad_request; [eexists; reflexivity|].
    apply not_false_is_true. intros H. apply Hn.
    now apply well_formed_challenge_dec.
  - rewrite (handleRequest_auth step1 step2 _ _ Hp). unfold auth.
    destruct (negb (String.eqb (method req) "POST") || negb (truthy (body_user req))
              || negb (truthy (body_A req)) || negb (truthy (body_M1 req)))
      eqn:Hguard; [eexists; reflexivity|].
    exfalso. apply Hn. unfold well_formed_auth.
    destruct (String.eqb_spec (method req) "POST") as [->|]; [|discriminate].
    simpl in Hguard.
    destruct (truthy (body_user req)), (truthy (body_A req)),
      (truthy (body_M1 req)); try discriminate. auto.
  - rewrite (handleRequest_register _ _ _ _ Hp). unfold catch.
    rewrite register_bad_request; [eexists; reflexivity|].
    apply not_false_is_true. intros H. apply Hn.
    now apply well_formed_register_dec.
Qed.

End RoutingProperties.


Lemma set_cache_is_not_read_again_witness :
  file_reads (trace (run [GET_challenge "alice"; POST_register "bob" "6b" "8c";
                          GET_challenge "bob"] loaded))
  = file_reads (trace loaded).
Proof.
  destruct (set_cache_is_not_read_again step1 step2
              [GET_challenge "alice"; POST_register "bob" "6b" "8c";
               GET_challenge "bob"] loaded) as (_ & H & _).
  - discriminate.
  - exact H.
Defined.


Lemma failed_write_leaves_record_in_cache_witness :
  let st' := exec (handleRequest step1 step2 (POST_register "alice" "5a" "7f"))
                  Toy2.read_only in
  answered Toy2.read_only st' [mkResp 500 None NoBody]
  /\ disk st' = None
  /\ stored st' "alice" = Some (mkUser (Some "5a") (Some "7f")).
Proof.
  destruct (failed_write_leaves_record_in_cache step1 step2
              (POST_register "alice" "5a" "7f") Toy2.read_only "alice" VNull)
    as (H1 & H2 & H3 & _).
  - reflexivity.
  - repeat split.
  - reflexivity.
  - discriminate.
  - reflexivity.
  - reflexivity.
  - reflexivity.
  - exact (conj H1 (conj H2 H3)).
Defined.

Lemma challenge_engine_failure_is_500_witness :
  let st' := exec (handleRequest step1 step2 (GET_challenge "carol"))
                  Toy2.with_blank_user in
  answered Toy2.with_blank_user st' [mkResp 500 None NoBody]
  /\ session st' = session Toy2.with_blank_user.
Proof.
  destruct (challenge_engine_failure_is_500 step1 step2
              (GET_challenge "carol") Toy2.with_blank_user "carol" Toy2.blank)
    as (H1 & H2 & _).
  - reflexivity.
  - repeat split.
  - reflexivity.
  - reflexivity.
  - reflexivity.
  - exact (conj H1 H2).
Defined.

Lemma auth_ignores_the_username_witness :
  auth step2 (POST_auth "alice" "aa" "aa:7f:b") challenged
  = auth step2 (POST_auth "mallory" "aa" "aa:7f:b") challenged.
Proof.
  apply (auth_ignores_the_username step2); try reflexivity; repeat split.
Defined.

Lemma cleanup_reloads_registered_users_witness :
  users (exec cleanup loaded) = None
  /\ stored (exec cleanup loaded) "alice" = Some alice.
Proof.
  destruct (cleanup_reloads_registered_users loaded) as (H1 & _ & _ & H2).
  - left. reflexivity.
  - split; [exact H1 | exact (H2 "alice")].
Defined.


Lemma malformed_request_is_answered_400_without_effect_witness :
  exists msg,
    handleRequest step1 step2
      (mkReq "/auth" "GET" None (Some "alice") None None (Some "aa") (Some "bb"))
      challenged
    = (Ok tt, emit (Send (mkResp 400 None (Text msg))) challenged).
Proof.
  apply (malformed_request_is_answered_400_without_effect step1 step2).
  right. left. split; [reflexivity|]. intros (Hm & _). discriminate Hm.
Defined.

(** * Properties of the client *)

Section ClientProperties.

Variable Cookie : Type.
Variable in_browser : bool.
Variable location : string.
Variable Net : Type.
Variable global_fetch :
  Client.HttpRequest Cookie -> Net -> option (Client.FetchResponse Cookie) * Net.
Variable encodeURIComponent : string -> string.
Variable ClientSession : Type.
Variable generateRandomSalt : nat -> string.
Variable generateVerifier : string -> string -> string -> option string.
Variable step1 : string -> string -> option ClientSession.
Variable step2 :
  nat -> ClientSession -> field -> field -> option (field * field * ClientSession).
Variable step3 : ClientSession -> field -> bool.

Abbreviation ClientState := (Client.ClientState Cookie Net).
Abbreviation fetch := (Client.fetch Cookie in_browser Net global_fetch).
Abbreviation challenge := (Client.challenge Cookie in_browser location Net global_fetch).
Abbreviation authenticate :=
  (Client.authenticate Cookie in_browser location Net global_fetch).
Abbreviation register :=
  (Client.register Cookie in_browser location Net global_fetch
     generateRandomSalt generateVerifier).
Abbreviation login :=
  (Client.login Cookie in_browser location Net global_fetch encodeURIComponent
     ClientSession step1 step2 step3).
Abbreviation sent := (Client.sent Cookie Net).
Abbreviation cookie := (Client.cookie Cookie Net).
Abbreviation draws := (Client.draws Cookie Net).
Abbreviation net := (Client.net Cookie Net).

Implicit Types (c : ClientState).

Abbreviation with_cookie := (Client.with_cookie Cookie in_browser).
Abbreviation challenge_request :=
  (Client.challenge_request Cookie in_browser location).
Abbreviation auth_request := (Client.auth_request Cookie in_browser location).
Abbreviation register_request :=
  (Client.register_request Cookie in_browser location).
Abbreviation cookie_after := (Client.cookie_after Cookie in_browser).

Ltac unfold_client :=
  unfold Client.login, Client.register, Client.challenge, Client.authenticate,
    Client.json, Client.engine, Client.draw, Client.fetch,
    mbind, Client.CM_bind, Client.cbind, mret, Client.CM_ret,
    Client.cret, Client.cthrow in *.

Lemma fetch_sends c u m h b :
  fetch u m h b c
  = match global_fetch (Client.mkHttp Cookie u m (with_cookie (cookie c) h) b) (net c) with
    | (Some rsp, n) =>
        (Ok rsp,
         Client.mkClient Cookie Net
           (if in_browser then cookie c else Client.rsp_set_cookie _ rsp)
           (draws c) n
           (sent c ++ [Client.mkHttp Cookie u m (with_cookie (cookie c) h) b]))
    | (None, n) =>
        (Throw "fetch failed",
         Client.mkClient Cookie Net (cookie c) (draws c) n
           (sent c ++ [Client.mkHttp Cookie u m (with_cookie (cookie c) h) b]))
    end.
Proof. reflexivity. Qed.

(** X12.  [login] never resolves to anything but true, and it resolves
    only when the [/challenge] response was ok and JSON, both engine
    steps went through, the [/auth] response was ok and JSON, and
    [step3] accepted the [M2] it carried; the identity given to the
    engine is the encoded user name. *)
Theorem login_true_only_after_mutual_proof (username password : string) c b :
  fst (login username password c) = Ok b ->
  b = true
  /\ exists j session A M1 session' c1 M2,
      challenge (encodeURIComponent username) c = (Ok j, c1)
      /\ step1 (encodeURIComponent username) password = Some session
      /\ step2 (draws c1) session (Client.j_salt j) (Client.j_B j)
         = Some (A, M1, session')
      /\ fst (authenticate (encodeURIComponent username) A M1
                (Client.mkClient Cookie Net (cookie c1) (S (draws c1)) (net c1) (sent c1)))
         = Ok M2
      /\ step3 session' M2 = true.
Proof.
  unfold Client.login. unfold mbind, Client.CM_bind, Client.cbind.
  destruct (challenge (encodeURIComponent username) c) as [[j|e] c1] eqn:Hc;
    [|discriminate].
  unfold Client.engine at 1.
  destruct (step1 (encodeURIComponent username) password) as [session|] eqn:H1;
    [|discriminate].
  unfold Client.cret at 1. unfold Client.draw at 1.
  unfold Client.engine at 1.
  destruct (step2 (draws c1) session (Client.j_salt j) (Client.j_B j))
    as [[[A M1] session']|] eqn:H2; [|discriminate].
  unfold Client.cret at 1.
  destruct (authenticate (encodeURIComponent username) A M1 _) as [[M2|e] c2] eqn:Ha;
    [|discriminate].
  destruct (step3 session' M2) eqn:H3; [|discriminate].
  intros [= <-]. split; [reflexivity|].
  exists j, session, A, M1, session', c1, M2. split_and!; try reflexivity; try assumption.
  now rewrite Ha.
Qed.

(** A [register] whose request is answered. *)
Lemma client_register_run (username password : string) c v rsp n :
  generateVerifier (generateRandomSalt (draws c)) username password = Some v ->
  global_fetch
    (register_request (cookie c) username (generateRandomSalt (draws c)) v) (net c)
  = (Some rsp, n) ->
  register username password c
  = (if Nat.eqb (Client.rsp_status _ rsp) 204
     then Ok true
     else Throw ("registering failed (" ++ Client.rsp_text _ rsp ++ ")")%string,
     Client.mkClient Cookie Net (cookie_after (cookie c) rsp) (S (draws c)) n
       (sent c ++ [register_request (cookie c) username
                     (generateRandomSalt (draws c)) v])).
Proof.
  intros Hv Hf. unfold Client.register.
  unfold mbind, Client.CM_bind, Client.cbind, Client.draw.
  rewrite Hv. unfold Client.engine, Client.cret at 1.
  rewrite fetch_sends. simpl.
  change (Client.mkHttp Cookie (location ++ "register")%string (Some "POST")
            (with_cookie (cookie c) (Client.json_headers Cookie))
            (Some (Client.RegisterBody (Some username)
                     (Some (generateRandomSalt (draws c))) (Some v))))
    with (register_request (cookie c) username (generateRandomSalt (draws c)) v).
  rewrite Hf. unfold Client.ok, No_Content.
  destruct (Nat.eqb_spec (Client.rsp_status Cookie rsp) 204) as [->|Hne].
  - reflexivity.
  - rewrite andb_false_r. reflexivity.
Qed.


(** X13.  When the [/challenge] response is not ok, [login] throws
    "challenge failed" having sent that one request only: no [/auth]
    request goes out and the engine is not consulted. *)
Theorem login_stops_after_failed_challenge (username password : string) c rsp n :
  global_fetch (challenge_request (cookie c) (encodeURIComponent username)) (net c)
  = (Some rsp, n) ->
  Client.ok Cookie rsp = false ->
  login username password c
  = (Throw "challenge failed",
     Client.mkClient Cookie Net (cookie_after (cookie c) rsp) (draws c) n
       (sent c ++ [challenge_request (cookie c) (encodeURIComponent username)])).
Proof.
  intros Hf Hok. unfold Client.login, Client.challenge.
  unfold mbind, Client.CM_bind, Client.cbind.
  rewrite fetch_sends.
  change (Client.mkHttp Cookie
            (location ++ "challenge?user=" ++ encodeURIComponent username)%string
            None (with_cookie (cookie c) (Client.no_headers Cookie)) None)
    with (challenge_request (cookie c) (encodeURIComponent username)).
  rewrite Hf, Hok. reflexivity.
Qed.

(** X14.  [register] sends one request, with the user name as given and
    the salt and verifier from the engine, and resolves to true exactly
    when the status is 204: any other status, 200 included, makes it
    throw with the response text. *)
Theorem register_succeeds_exactly_on_204 (username password : string) c v rsp n :
  generateVerifier (generateRandomSalt (draws c)) username password = Some v ->
  global_fetch
    (register_request (cookie c) username (generateRandomSalt (draws c)) v) (net c)
  = (Some rsp, n) ->
  register username password c
  = (if Nat.eqb (Client.rsp_status _ rsp) 204
     then Ok true
     else Throw ("registering failed (" ++ Client.rsp_text _ rsp ++ ")")%string,
     Client.mkClient Cookie Net (cookie_after (cookie c) rsp) (S (draws c)) n
       (sent c ++ [register_request (cookie c) username
                     (generateRandomSalt (draws c)) v])).
Proof. apply client_register_run. Qed.

(** X15.  Once the [/challenge] response is ok and the engine steps go
    through, [login] has sent exactly two requests, in this order: the
    challenge, and a POST to [/auth] carrying the encoded user name, [A]
    and [M1] (never the password).  Outside a browser the [/auth]
    request carries the cookie that the challenge response set, not the
    one the client held before. *)
Theorem login_sends_challenge_then_auth
    (username password : string) c rsp n j session A M1 session' :
  global_fetch (challenge_request (cookie c) (encodeURIComponent username)) (net c)
  = (Some rsp, n) ->
  Client.ok Cookie rsp = true ->
  Client.rsp_json _ rsp = Some j ->
  step1 (encodeURIComponent username) password = Some session ->
  step2 (draws c) session (Client.j_salt j) (Client.j_B j) = Some (A, M1, session') ->
  sent (snd (login username password c))
  = sent c
    ++ [challenge_request (cookie c) (encodeURIComponent username);
        auth_request (cookie_after (cookie c) rsp)
          (encodeURIComponent username) A M1].
Proof.
  intros Hf Hok Hj H1 H2. unfold Client.login, Client.challenge.
  unfold mbind, Client.CM_bind, Client.cbind.
  rewrite fetch_sends.
  change (Client.mkHttp Cookie
            (location ++ "challenge?user=" ++ encodeURIComponent username)%string
            None (with_cookie (cookie c) (Client.no_headers Cookie)) None)
    with (challenge_request (cookie c) (encodeURIComponent username)).
  rewrite Hf, Hok. unfold Client.json. rewrite Hj, H1. simpl.
  rewrite H2. simpl. unfold Client.authenticate.
  unfold mbind, Client.CM_bind, Client.cbind.
  rewrite fetch_sends. simpl.
  change (Client.mkHttp Cookie (location ++ "auth")%string (Some "POST")
            (with_cookie (if in_browser then cookie c else Client.rsp_set_cookie Cookie rsp)
               (Client.json_headers Cookie))
            (Some (Client.AuthBody (Some (encodeURIComponent username)) A M1)))
    with (auth_request (cookie_after (cookie c) rsp)
            (encodeURIComponent username) A M1).
  unfold Client.json, Client.engine, Client.cret, Client.cthrow.
  destruct (global_fetch _ n) as [[rsp2|] n2]; simpl;
    [|now rewrite <- app_assoc].
  destruct (Client.ok Cookie rsp2); simpl; [|now rewrite <- app_assoc].
  destruct (Client.rsp_json Cookie rsp2) as [j2|]; simpl;
    [|now rewrite <- app_assoc].
  destruct (step3 session' (Client.j_M2 j2)); simpl; now rewrite <- app_assoc.
Qed.

End ClientProperties.

(** * Client and server together *)

Section RoundTrip.

Context {PrivState : Type}.
Variable server_step1 :
  nat -> field -> field -> field -> option (string * PrivState).
Variable server_step2 : PrivState -> field -> field -> option string.
Variable qs_decode : string -> string.
Variable render : Body -> string.
Variable encodeURIComponent : string -> string.
Variable ClientSession : Type.
Variable generateRandomSalt : nat -> string.
Variable generateVerifier : string -> string -> string -> option string.
Variable client_step1 : string -> string -> option ClientSession.
Variable client_step2 :
  nat -> ClientSession -> field -> field -> option (field * field * ClientSession).
Variable client_step3 : ClientSession -> field -> bool.

Abbreviation World := (App.World (PrivState := PrivState)).
Abbreviation app := (App.app server_step1 server_step2 qs_decode render).
Abbreviation deliver := (App.deliver qs_decode).
Abbreviation node_register :=
  (Client.register nat false "http://localhost/" World app
     generateRandomSalt generateVerifier).
Abbreviation node_login :=
  (Client.login nat false "http://localhost/" World app encodeURIComponent
     ClientSession client_step1 client_step2 client_step3).

Implicit Types (w : World) (st : State PrivState).










End RoundTrip.

(** * The client on concrete requests *)

Lemma login_true_only_after_mutual_proof_witness :
  exists j,
    fst (Client.challenge nat false "http://localhost/" _ ToyClient.app
           "alice" ToyClient.registered) = Ok j.
Proof.
  destruct (login_true_only_after_mutual_proof nat false "http://localhost/" _
              ToyClient.app (fun s => s) _ ToyClient.step1 ToyClient.step2
              ToyClient.step3 "alice" "secret" ToyClient.registered true)
    as (_ & j & _ & _ & _ & _ & c1 & _ & Hc & _).
  - vm_compute. reflexivity.
  - exists j. now rewrite Hc.
Defined.

Lemma login_stops_after_failed_challenge_witness :
  fst (ToyClient.login "bob" "secret" (ToyClient.start None))
  = Throw "challenge failed".
Proof.
  refine (f_equal fst
            (login_stops_after_failed_challenge nat false "http://localhost/" _
               ToyClient.app (fun s => s) _ ToyClient.step1 ToyClient.step2
               ToyClient.step3 "bob" "secret" (ToyClient.start None)
               (ToyClient.response_to
                  (Client.challenge_request nat false "http://localhost/" None "bob")
                  (Client.net _ _ (ToyClient.start None)))
               (ToyClient.world_after
                  (Client.challenge_request nat false "http://localhost/" None "bob")
                  (Client.net _ _ (ToyClient.start None)))
               _ _));
    vm_compute; reflexivity.
Defined.

Lemma register_succeeds_exactly_on_204_witness :
  fst (ToyClient.register "alice" "secret" (ToyClient.start None)) = Ok true.
Proof.
  refine (f_equal fst
            (register_succeeds_exactly_on_204 nat false "http://localhost/" _
               ToyClient.app ToyClient.generateRandomSalt
               ToyClient.generateVerifier "alice" "secret" (ToyClient.start None)
               "5/alice/secret"
               (ToyClient.response_to
                  (Client.register_request nat false "http://localhost/" None
                     "alice" "5" "5/alice/secret")
                  (Client.net _ _ (ToyClient.start None)))
               (ToyClient.world_after
                  (Client.register_request nat false "http://localhost/" None
                     "alice" "5" "5/alice/secret")
                  (Client.net _ _ (ToyClient.start None)))
               _ _));
    vm_compute; reflexivity.
Defined.

Lemma login_sends_challenge_then_auth_witness :
  Client.sent _ _ (snd (ToyClient.login "alice" "secret" ToyClient.registered))
  = Client.sent _ _ ToyClient.registered
    ++ [ Client.challenge_request nat false "http://localhost/" (Some 0) "alice";
         Client.auth_request nat false "http://localhost/" (Some 0) "alice"
           (Some "aa") (Some "aa:5/alice/secret:b") ].
Proof.
  refine (login_sends_challenge_then_auth nat false "http://localhost/" _
            ToyClient.app (fun s => s) _ ToyClient.step1 ToyClient.step2
            ToyClient.step3 "alice" "secret" ToyClient.registered
            (ToyClient.response_to
               (Client.challenge_request nat false "http://localhost/" (Some 0) "alice")
               (Client.net _ _ ToyClient.registered))
            (ToyClient.world_after
               (Client.challenge_request nat false "http://localhost/" (Some 0) "alice")
               (Client.net _ _ ToyClient.registered))
            (Client.mkJson (Some "5") (Some "b") None)
            (ToyClient.mkSession "alice" "secret")
            (Some "aa") (Some "aa:5/alice/secret:b")
            (ToyClient.mkSession "alice" "secret") _ _ _ _ _);
    vm_compute; reflexivity.
Defined.

